(** * ttl-operator: the two TTL reconcilers

    A shallow embedding of
      - api/v1alpha1/ttlresource_types.go        (the TTLResource record),
      - internal/controller/ttlresource_controller.go
                                               (TTLResourceReconciler),
      - internal/controller/resource_controller.go
                                               (ResourceReconciler),
    followed by the properties the specification states about them.

    The reconcilers talk to the API server through controller-runtime's
    client.  The client is an interface here ([Client]): every call takes
    the world and gives back an answer and the next world, so that a
    statement can say which calls a reconciliation made and what it did
    with their answers.  [Fake] is an in-memory API server with
    optimistic concurrency and a script of faults and interference, on
    which the reconcilers run on concrete inputs.

    Go's [int] is taken at 64 bits.  Log lines are left out: they decide
    nothing. *)

From Stdlib Require Import ZArith Ascii String List Bool Lia.
From stdpp Require Import base option strings gmap pretty.

Local Open Scope string_scope.
Local Open Scope Z_scope.

(** ** Go's [time] package, as far as the controllers use it *)

(** A [time.Time] is an instant.  The model counts nanoseconds from Go's
    zero time (January 1, year 1, 00:00:00 UTC), so that [IsZero] is the
    test against 0.  The seconds counter of [time.Time] is an int64 and
    cannot overflow for any instant the API server produces; the model
    takes Z for it. *)
Definition Time : Type := Z.

(** [time.Duration] is an int64 count of nanoseconds. *)
Definition Duration : Type := Z.

Definition minInt64 : Z := - 2 ^ 63.
Definition maxInt64 : Z := 2 ^ 63 - 1.

(** Two's complement wrap-around of int64 arithmetic. *)
Definition wrap64 (z : Z) : Z := (z + 2 ^ 63) mod 2 ^ 64 - 2 ^ 63.

Definition Second : Duration := 1000000000.

(** [a * b] on two [time.Duration] values. *)
Definition Duration_mul (a b : Duration) : Duration := wrap64 (a * b).

(** [time.Duration(n) * time.Second] for an [int] n. *)
Definition secondsDuration (n : Z) : Duration := Duration_mul n Second.

Definition Time_IsZero (t : Time) : bool := t =? 0.
Definition Time_Add (t : Time) (d : Duration) : Time := t + d.
Definition Time_After (t u : Time) : bool := u <? t.
Definition Time_Before (t u : Time) : bool := t <? u.

(** [t.Sub(u)]: the difference, saturated to the range of [Duration]. *)
Definition Time_Sub (t u : Time) : Duration :=
  if (minInt64 <=? t - u) && (t - u <=? maxInt64) then t - u
  else if t <? u then minInt64 else maxInt64.

(** ** Errors *)

(** The reasons of an API status error that the controllers test for. *)
Inductive StatusReason : Type :=
| StatusReasonNotFound
| StatusReasonConflict
| StatusReasonAlreadyExists
| StatusReasonOther (reason : string).

(** A Go [error] value: a status error of the API machinery, or one made
    by [fmt.Errorf], without or with a wrapped cause ([%w]). *)
Inductive error : Type :=
| StatusError (reason : StatusReason)
| ErrorString (msg : string)
| WrapError (msg : string) (cause : error).

(** [errors.As] walks the chain of wrapped errors to the status error. *)
Fixpoint ReasonForError (e : error) : option StatusReason :=
  match e with
  | StatusError r => Some r
  | ErrorString _ => None
  | WrapError _ cause => ReasonForError cause
  end.

Definition IsNotFound (e : error) : bool :=
  match ReasonForError e with Some StatusReasonNotFound => true | _ => false end.
Definition IsConflict (e : error) : bool :=
  match ReasonForError e with Some StatusReasonConflict => true | _ => false end.
Definition IsAlreadyExists (e : error) : bool :=
  match ReasonForError e with Some StatusReasonAlreadyExists => true | _ => false end.

(** ** [strconv.Atoi] *)

Definition digitOf (ch : ascii) : option Z :=
  let n := Z.of_N (N_of_ascii ch) in
  if (48 <=? n) && (n <=? 57) then Some (n - 48) else None.

Fixpoint parseDigits (s : string) (acc : Z) : option Z :=
  match s with
  | EmptyString => Some acc
  | String ch rest =>
      match digitOf ch with
      | Some d => parseDigits rest (acc * 10 + d)
      | None => None
      end
  end.

(** [Atoi] accepts an optional sign followed by one or more decimal
    digits whose value fits an [int] (64 bits); anything else is an
    error, [None] here. *)
Definition Atoi (s : string) : option Z :=
  match s with
  | EmptyString => None
  | String ch rest =>
      let neg := Ascii.eqb ch "-" in
      let body := if neg || Ascii.eqb ch "+" then rest else s in
      match body with
      | EmptyString => None
      | _ =>
          match parseDigits body 0 with
          | None => None
          | Some n =>
              let v := if neg then - n else n in
              if (minInt64 <=? v) && (v <=? maxInt64) then Some v else None
          end
      end
  end.

(** ** [schema.ParseGroupVersion] and [GroupVersionKind] *)

Record GroupVersionKind : Type := mkGVK {
  Group : string;
  Version : string;
  Kind : string
}.

Definition GroupVersionKind_eqb (a b : GroupVersionKind) : bool :=
  String.eqb (Group a) (Group b) && String.eqb (Version a) (Version b)
  && String.eqb (Kind a) (Kind b).

(** [gvk.String()] *)
Definition GroupVersionKind_String (g : GroupVersionKind) : string :=
  Group g +:+ "/" +:+ Version g +:+ ", Kind=" +:+ Kind g.

Fixpoint strings_Count (ch : ascii) (s : string) : nat :=
  match s with
  | EmptyString => O
  | String c rest =>
      if Ascii.eqb c ch then S (strings_Count ch rest) else strings_Count ch rest
  end.

(** The text before and after the first [ch] of [s]. *)
Fixpoint cutAt (ch : ascii) (s : string) : string * string :=
  match s with
  | EmptyString => (EmptyString, EmptyString)
  | String c rest =>
      if Ascii.eqb c ch then (EmptyString, rest)
      else let '(a, b) := cutAt ch rest in (String c a, b)
  end.

Definition ParseGroupVersion (gv : string) : error + (string * string) :=
  if String.eqb gv "" || String.eqb gv "/" then inr ("", "")
  else
    match strings_Count "/" gv with
    | O => inr ("", gv)
    | S O => inr (cutAt "/" gv)
    | _ => inl (ErrorString ("unexpected GroupVersion string: " +:+ gv))
    end.

(** ** The API objects *)

Record OwnerReference : Type := mkOwnerReference {
  or_APIVersion : string;
  or_Kind : string;
  or_Name : string;
  or_UID : string
}.

Record ObjectMeta : Type := mkObjectMeta {
  Name : string;
  Namespace : string;
  UID : string;
  ResourceVersion : Z;
  CreationTimestamp : Time;
  DeletionTimestamp : option Time;
  Labels : gmap string string;
  Annotations : gmap string string;
  OwnerReferences : list OwnerReference
}.

(** [m[k]] on a Go [map[string]string]: the value and whether it is there. *)
Definition mapIndex (m : gmap string string) (k : string) : string * bool :=
  match m !! k with
  | Some v => (v, true)
  | None => ("", false)
  end.

(** api/v1alpha1/ttlresource_types.go *)
Record TTLResourceSpec : Type := mkSpec {
  TTLSeconds : Z
}.

Record TTLResourceStatus : Type := mkStatus {
  Expired : bool;
  CreatedAt : Time;
  ExpiredAt : option Time
}.

Record TTLResource : Type := mkTTLResource {
  Meta : ObjectMeta;
  Spec : TTLResourceSpec;
  Status : TTLResourceStatus
}.

(** [TTLResourceStatus{}] *)
Definition zeroStatus : TTLResourceStatus :=
  {| Expired := false; CreatedAt := 0; ExpiredAt := None |}.

Definition withStatus (t : TTLResource) (s : TTLResourceStatus) : TTLResource :=
  {| Meta := Meta t; Spec := Spec t; Status := s |}.
Definition withSpec (t : TTLResource) (s : TTLResourceSpec) : TTLResource :=
  {| Meta := Meta t; Spec := s; Status := Status t |}.
Definition withCreatedAt (t : TTLResource) (at_ : Time) : TTLResource :=
  withStatus t {| Expired := Expired (Status t); CreatedAt := at_;
                  ExpiredAt := ExpiredAt (Status t) |}.
Definition withExpiredAt (t : TTLResource) (at_ : Time) : TTLResource :=
  withStatus t {| Expired := Expired (Status t); CreatedAt := CreatedAt (Status t);
                  ExpiredAt := Some at_ |}.
Definition withExpired (t : TTLResource) (b : bool) : TTLResource :=
  withStatus t {| Expired := b; CreatedAt := CreatedAt (Status t);
                  ExpiredAt := ExpiredAt (Status t) |}.
Definition withResourceVersion (t : TTLResource) (rv : Z) : TTLResource :=
  {| Meta := {| Name := Name (Meta t); Namespace := Namespace (Meta t);
                UID := UID (Meta t); ResourceVersion := rv;
                CreationTimestamp := CreationTimestamp (Meta t);
                DeletionTimestamp := DeletionTimestamp (Meta t);
                Labels := Labels (Meta t); Annotations := Annotations (Meta t);
                OwnerReferences := OwnerReferences (Meta t) |};
     Spec := Spec t; Status := Status t |}.

(** The three kinds of target the ResourceReconciler knows. *)
Inductive TargetKind : Type := Pod | Service | Deployment.

(** [client.ObjectKey]: namespace and name. *)
Record ObjectKey : Type := mkKey {
  key_Namespace : string;
  key_Name : string
}.

(** [ctrl.Result] *)
Record Result : Type := mkResult {
  Requeue : bool;
  RequeueAfter : Duration
}.

Definition noRequeue : Result := {| Requeue := false; RequeueAfter := 0 |}.

(** What [Reconcile] returns: [(ctrl.Result, error)]. *)
Definition Outcome : Type := Result * option error.

(** resource_controller.go, lines 40-47 *)
Definition TTLAnnotationKey : string := "ttl.example.com/ttl-seconds".
Definition TTLResourceLabelKey : string := "ttl.example.com/managed-by".
Definition TTLResourceLabelValue : string := "resource-controller".

(** ** The client

    The calls of controller-runtime's client the controllers make, and
    [metav1.Now()].  A call takes the world and gives back its answer and
    the next world.

    [Update], [Status().Update] and [Create] write the server's answer
    back into the object they were given.  Under the version check a
    successful answer is the submitted object with a new resource
    version; of the three only the object handed to [Status().Update] is
    read again by the controllers, so [StatusUpdate] answers with the new
    resource version and the other two with the error only. *)
Record Client (W : Type) : Type := mkClient {
  Now : W -> Time * W;
  GetTTL : ObjectKey -> W -> (error + TTLResource) * W;
  GetObject : TargetKind -> ObjectKey -> W -> (error + ObjectMeta) * W;
  Create : TTLResource -> W -> option error * W;
  Update : TTLResource -> W -> option error * W;
  StatusUpdate : TTLResource -> W -> (error + Z) * W;
  Delete : TTLResource -> W -> option error * W;
  DeleteObject : TargetKind -> string -> string -> W -> option error * W
}.

Arguments Now {W} _ _.
Arguments GetTTL {W} _ _ _.
Arguments GetObject {W} _ _ _ _.
Arguments Create {W} _ _ _.
Arguments Update {W} _ _ _.
Arguments StatusUpdate {W} _ _ _.
Arguments Delete {W} _ _ _.
Arguments DeleteObject {W} _ _ _ _ _.

(** ** A function body with early return

    [Act A] is a piece of a Go function body: run on a world it either
    returns from the function ([inl], the [return] statement) or goes on
    with a value ([inr]). *)
Definition Act (W A : Type) : Type := W -> (Outcome + A) * W.

Definition ret {W A} (a : A) : Act W A := fun w => (inr a, w).

Definition return_ {W A} (o : Outcome) : Act W A := fun w => (inl o, w).

Definition bind {W A B} (m : Act W A) (k : A -> Act W B) : Act W B :=
  fun w =>
    match m w with
    | (inl o, w') => (inl o, w')
    | (inr a, w') => k a w'
    end.

(** A call whose answer the body goes on with. *)
Definition call {W A} (f : W -> A * W) : Act W A :=
  fun w => let '(a, w') := f w in (inr a, w').

(** [return f(...)]. *)
Definition tail {W A} (f : W -> Outcome * W) : Act W A :=
  fun w => let '(o, w') := f w in (inl o, w').

(** The function whose body is [m]. *)
Definition body {W} (m : Act W Outcome) : W -> Outcome * W :=
  fun w =>
    match m w with
    | (inl o, w') => (o, w')
    | (inr o, w') => (o, w')
    end.

Notation "'do' x <- m ; k" := (bind m (fun x => k))
  (at level 10, x name, m at level 100, k at level 200, only parsing).
Notation "'do' ' pat <- m ; k" := (bind m (fun x => match x with pat => k end))
  (at level 10, pat pattern, m at level 100, k at level 200, only parsing).

Definition keyOf (t : TTLResource) : ObjectKey :=
  {| key_Namespace := Namespace (Meta t); key_Name := Name (Meta t) |}.

(** ** internal/controller/ttlresource_controller.go *)
Module TTLResourceReconciler.
Section WithClient.
Context {W : Type} (r : Client W).

Definition Reconcile (req : ObjectKey) : W -> Outcome * W :=
  body (
    do got <- call (GetTTL r req) ;
    match got with
    | inl err =>
        if IsNotFound err then return_ (noRequeue, None)
        else return_ (noRequeue, Some err)
    | inr ttlResource =>
        do now <- call (Now r) ;
        (* 1. a TTL of 0 is never deleted *)
        if TTLSeconds (Spec ttlResource) =? 0 then return_ (noRequeue, None)
        else
        (* 2. the first Reconcile records CreatedAt *)
        if Time_IsZero (CreatedAt (Status ttlResource)) then
          let ttlResource :=
            withCreatedAt ttlResource (CreationTimestamp (Meta ttlResource)) in
          do upd <- call (StatusUpdate r ttlResource) ;
          match upd with
          | inl err => return_ (noRequeue, Some err)
          | inr _ => return_ ({| Requeue := true; RequeueAfter := 0 |}, None)
          end
        else
        (* 3. ExpiredAt *)
        do ' (ttlResource, expiredAt) <-
          match ExpiredAt (Status ttlResource) with
          | None =>
              let expireTime :=
                Time_Add (CreatedAt (Status ttlResource))
                         (secondsDuration (TTLSeconds (Spec ttlResource))) in
              let ttlResource := withExpiredAt ttlResource expireTime in
              do upd <- call (StatusUpdate r ttlResource) ;
              match upd with
              | inl err => return_ (noRequeue, Some err)
              | inr rv => ret (withResourceVersion ttlResource rv, expireTime)
              end
          | Some expiredAt => ret (ttlResource, expiredAt)
          end ;
        (* 4. expiry and deletion *)
        if negb (Expired (Status ttlResource)) && Time_After now expiredAt then
          let ttlResource := withExpired ttlResource true in
          do upd <- call (StatusUpdate r ttlResource) ;
          match upd with
          | inl err => return_ (noRequeue, Some err)
          | inr rv =>
              do del <- call (Delete r (withResourceVersion ttlResource rv)) ;
              match del with
              | Some err => return_ (noRequeue, Some err)
              | None => return_ (noRequeue, None)
              end
          end
        else
        (* 5. not yet due: requeue after the time that is left *)
        return_ ({| Requeue := false; RequeueAfter := Time_Sub expiredAt now |}, None)
    end).

End WithClient.
End TTLResourceReconciler.

(** ** internal/controller/resource_controller.go *)
Module ResourceReconciler.
Section WithClient.
Context {W : Type} (r : Client W).

(** The [switch gvk] of [deleteOwnerResource] (lines 454-463). *)
Definition objectForGVK (gvk : GroupVersionKind) : option TargetKind :=
  if GroupVersionKind_eqb gvk (mkGVK "" "v1" "Pod") then Some Pod
  else if GroupVersionKind_eqb gvk (mkGVK "" "v1" "Service") then Some Service
  else if GroupVersionKind_eqb gvk (mkGVK "apps" "v1" "Deployment") then Some Deployment
  else None.

(** [deleteOwnerResource] deletes the target an owner reference names. *)
Definition deleteOwnerResource (ownerRef : OwnerReference) (namespace : string)
  : W -> option error * W :=
  fun w =>
    match ParseGroupVersion (or_APIVersion ownerRef) with
    | inl err => (Some (WrapError "invalid apiVersion: " err), w)
    | inr (g, v) =>
        let gvk := {| Group := g; Version := v; Kind := or_Kind ownerRef |} in
        match objectForGVK gvk with
        | None =>
            (Some (ErrorString ("unsupported resource type: "
                                +:+ GroupVersionKind_String gvk)), w)
        | Some obj =>
            let '(del, w') := DeleteObject r obj namespace (or_Name ownerRef) w in
            match del with
            | Some err =>
                if IsNotFound err then
                  (* already deleted counts as done *)
                  (None, w')
                else
                  (Some (WrapError ("failed to delete owner resource "
                                    +:+ Kind gvk +:+ "/" +:+ namespace +:+ "/"
                                    +:+ or_Name ownerRef +:+ ": ") err), w')
            | None => (None, w')
            end
        end
    end.

(** [deleteExpiredResources] deletes the target of the first owner
    reference and then the TTLResource.  A failure to delete the target
    is logged and the TTLResource is deleted all the same. *)
Definition deleteExpiredResources (ttlResource : TTLResource) : W -> Outcome * W :=
  body (
    do _ <-
      match OwnerReferences (Meta ttlResource) with
      | ownerRef :: _ =>
          call (deleteOwnerResource ownerRef (Namespace (Meta ttlResource)))
      | [] => ret None
      end ;
    do del <- call (Delete r ttlResource) ;
    match del with
    | Some err =>
        if IsNotFound err then return_ (noRequeue, None)
        else return_ (noRequeue, Some err)
    | None => return_ (noRequeue, None)
    end).

(** Lines 254-265 and again 292-298: CreatedAt from the creation
    timestamp when it is zero, then ExpiredAt when it is nil and
    CreatedAt is known.  The flag says whether anything was set. *)
Definition initStatus (t : TTLResource) : TTLResource * bool :=
  let '(t, needsUpdate) :=
    if Time_IsZero (CreatedAt (Status t))
    then (withCreatedAt t (CreationTimestamp (Meta t)), true)
    else (t, false) in
  match ExpiredAt (Status t) with
  | None =>
      if negb (Time_IsZero (CreatedAt (Status t))) then
        let expireTime :=
          Time_Add (CreatedAt (Status t)) (secondsDuration (TTLSeconds (Spec t))) in
        (withExpiredAt t expireTime, true)
      else (t, needsUpdate)
  | Some _ => (t, needsUpdate)
  end.

(** [r.Get] of the latest version of [t] followed by the UID check
    (lines 270-289, 329-344 and 360-379). *)
Definition getLatest (t : TTLResource) : Act W TTLResource :=
  do got <- call (GetTTL r (keyOf t)) ;
  match got with
  | inl err =>
      if IsNotFound err then return_ (noRequeue, None)
      else return_ (noRequeue, Some err)
  | inr latestTTLResource =>
      if negb (String.eqb (UID (Meta t)) (UID (Meta latestTTLResource)))
      then return_ (noRequeue, None)
      else ret latestTTLResource
  end.

(** [r.Status().Update] with the error handling of lines 300-312 and
    384-397. *)
Definition updateStatus (t : TTLResource) : Act W TTLResource :=
  do upd <- call (StatusUpdate r t) ;
  match upd with
  | inl err =>
      if IsConflict err then
        return_ ({| Requeue := false; RequeueAfter := Second |}, None)
      else if IsNotFound err then return_ (noRequeue, None)
      else return_ (noRequeue, Some err)
  | inr rv => ret (withResourceVersion t rv)
  end.

(** [reconcileTTLResource] manages the expiry of a TTLResource and
    deletes the target when it has expired. *)
Definition reconcileTTLResource (ttlResource : TTLResource) : W -> Outcome * W :=
  body (
    do now <- call (Now r) ;
    if TTLSeconds (Spec ttlResource) =? 0 then return_ (noRequeue, None)
    else
    let '(ttlResource, needsUpdate) := initStatus ttlResource in
    do ' (currentTTLResource, now) <-
      (if needsUpdate then
         do latestTTLResource <- getLatest ttlResource ;
         let latestTTLResource := fst (initStatus latestTTLResource) in
         do latestTTLResource <- updateStatus latestTTLResource ;
         do now <- call (Now r) ;
         ret (latestTTLResource, now)
       else ret (ttlResource, now)) ;
    (* already marked expired: go on deleting *)
    if Expired (Status currentTTLResource) then
      do latestTTLResource <- getLatest currentTTLResource ;
      tail (deleteExpiredResources latestTTLResource)
    else
    match ExpiredAt (Status currentTTLResource) with
    | Some expiredAt =>
        if negb (Time_Before now expiredAt) then
          do latestTTLResource <- getLatest currentTTLResource ;
          do latestTTLResource <-
            (if negb (Expired (Status latestTTLResource))
             then updateStatus (withExpired latestTTLResource true)
             else ret latestTTLResource) ;
          tail (deleteExpiredResources latestTTLResource)
        else
          return_ ({| Requeue := false; RequeueAfter := Time_Sub expiredAt now |}, None)
    | None => return_ (noRequeue, None)
    end).

(** [cleanupTTLResource] deletes the TTLResource that goes with a
    target, when the resource controller made it. *)
Definition cleanupTTLResource (namespacedName : ObjectKey) : W -> Outcome * W :=
  body (
    let ttlResourceName := "ttl-" +:+ key_Name namespacedName in
    do got <- call (GetTTL r {| key_Namespace := key_Namespace namespacedName;
                                key_Name := ttlResourceName |}) ;
    match got with
    | inl err =>
        if IsNotFound err then return_ (noRequeue, None)
        else return_ (noRequeue, Some err)
    | inr ttlResource =>
        if String.eqb (fst (mapIndex (Labels (Meta ttlResource)) TTLResourceLabelKey))
                      TTLResourceLabelValue
        then
          do del <- call (Delete r ttlResource) ;
          match del with
          | Some err =>
              if negb (IsNotFound err) then return_ (noRequeue, Some err)
              else return_ (noRequeue, None)
          | None => return_ (noRequeue, None)
          end
        else return_ (noRequeue, None)
    end).

(** Lines 74-110 of [Reconcile]: Pod, Service and Deployment are tried
    in this order; when none is there the TTLResource of the name is
    cleaned up. *)
Definition probeTarget (req : ObjectKey) : Act W (ObjectMeta * string * string) :=
  do pod <- call (GetObject r Pod req) ;
  match pod with
  | inr obj => ret (obj, "Pod", "v1")
  | inl err =>
      if negb (IsNotFound err) then return_ (noRequeue, Some err)
      else
        do svc <- call (GetObject r Service req) ;
        match svc with
        | inr obj => ret (obj, "Service", "v1")
        | inl err =>
            if negb (IsNotFound err) then return_ (noRequeue, Some err)
            else
              do deploy <- call (GetObject r Deployment req) ;
              match deploy with
              | inr obj => ret (obj, "Deployment", "apps/v1")
              | inl err =>
                  if negb (IsNotFound err) then return_ (noRequeue, Some err)
                  else tail (cleanupTTLResource req)
              end
        end
  end.

(** The TTLResource that [Reconcile] creates for a target (lines 167-187). *)
Definition newTTLResource (req : ObjectKey) (obj : ObjectMeta)
    (gvk apiVersion : string) (ttlSeconds : Z) : TTLResource :=
  {| Meta := {| Name := "ttl-" +:+ Name obj;
                Namespace := key_Namespace req;
                UID := "";
                ResourceVersion := 0;
                CreationTimestamp := 0;
                DeletionTimestamp := None;
                Labels := {[ TTLResourceLabelKey := TTLResourceLabelValue;
                             "app.kubernetes.io/managed-by" := "ttl-operator" ]};
                Annotations := ∅;
                OwnerReferences :=
                  [ {| or_APIVersion := apiVersion; or_Kind := gvk;
                       or_Name := Name obj; or_UID := UID obj |} ] |};
     Spec := {| TTLSeconds := ttlSeconds |};
     Status := zeroStatus |}.

(** [Reconcile] looks at the annotation of a target and creates or
    manages its TTLResource; a TTLResource is reconciled by
    [reconcileTTLResource]. *)
Definition Reconcile (req : ObjectKey) : W -> Outcome * W :=
  body (
    do got <- call (GetTTL r req) ;
    match got with
    | inr ttlResource => tail (reconcileTTLResource ttlResource)
    | inl err =>
        if negb (IsNotFound err) then return_ (noRequeue, Some err)
        else
        do ' (obj, gvk, apiVersion) <- probeTarget req ;
        (* a target that is being deleted *)
        match DeletionTimestamp obj with
        | Some _ => tail (cleanupTTLResource req)
        | None =>
        let '(ttlSecondsStr, hasTTL) := mapIndex (Annotations obj) TTLAnnotationKey in
        if negb hasTTL then tail (cleanupTTLResource req)
        else
        match Atoi ttlSecondsStr with
        | None => return_ (noRequeue, None)
        | Some ttlSeconds =>
        if ttlSeconds <=? 0 then return_ (noRequeue, None)
        else
        let ttlResourceName := "ttl-" +:+ Name obj in
        do existing <- call (GetTTL r {| key_Namespace := key_Namespace req;
                                         key_Name := ttlResourceName |}) ;
        match existing with
        | inr existingTTLResource =>
            if negb (TTLSeconds (Spec existingTTLResource) =? ttlSeconds) then
              let existingTTLResource :=
                withStatus (withSpec existingTTLResource {| TTLSeconds := ttlSeconds |})
                           zeroStatus in
              do upd <- call (Update r existingTTLResource) ;
              match upd with
              | Some err =>
                  if IsConflict err then return_ (noRequeue, None)
                  else return_ (noRequeue, Some err)
              | None => return_ (noRequeue, None)
              end
            else return_ (noRequeue, None)
        | inl err =>
            if negb (IsNotFound err) then return_ (noRequeue, Some err)
            else
            do crt <- call (Create r (newTTLResource req obj gvk apiVersion ttlSeconds)) ;
            match crt with
            | Some err =>
                if IsAlreadyExists err then return_ (noRequeue, None)
                else return_ (noRequeue, Some err)
            | None => return_ (noRequeue, None)
            end
        end
        end
        end
    end).

End WithClient.
End ResourceReconciler.

(** A record is settled when its TTL is not 0 and its status has both
    CreatedAt and ExpiredAt. *)
Definition settled (t : TTLResource) (expiredAt : Time) : Prop :=
  TTLSeconds (Spec t) <> 0
  /\ CreatedAt (Status t) <> 0
  /\ ExpiredAt (Status t) = Some expiredAt.

(** ** An in-memory API server

    Objects are kept per kind under (namespace, name).  Every write takes
    the next revision of the store as the object's resource version, and
    [Update] and [Status().Update] of an object whose resource version is
    not the stored one fail with Conflict.  TTLResource has the status
    subresource ([+kubebuilder:subresource:status], ttlresource_types.go,
    line 48): [Create] stores the object with an empty status, [Update]
    stores the object it is given but for the status, which stays as it
    is stored, and [Status().Update] stores the status only.  [Delete]
    removes by name.  The [script] says what the environment does at
    each call to come: nothing, a fault, or a change made by somebody
    else just before the call is served.  Reading the clock is no call.
    [calls] is the log of the calls served so far. *)
Module Fake.

Inductive Verb : Type :=
| VGet | VGetObject (k : TargetKind) | VCreate | VUpdate | VStatusUpdate
| VDelete | VDeleteObject (k : TargetKind).

Record Store : Type := mkStore {
  ttlresources : gmap (string * string) TTLResource;
  pods : gmap (string * string) ObjectMeta;
  services : gmap (string * string) ObjectMeta;
  deployments : gmap (string * string) ObjectMeta;
  clock : Time;
  revision : Z
}.

Inductive Env : Type :=
| Proceed
| Fail (e : error)
| Interfere (f : Store -> Store).

Record World : Type := mkWorld {
  store : Store;
  script : list Env;
  calls : list Verb
}.

Definition notFound : error := StatusError StatusReasonNotFound.
Definition conflict : error := StatusError StatusReasonConflict.
Definition alreadyExists : error := StatusError StatusReasonAlreadyExists.

Definition setTTLResources (s : Store) (m : gmap (string * string) TTLResource)
    (rev : Z) : Store :=
  {| ttlresources := m; pods := pods s; services := services s;
     deployments := deployments s; clock := clock s; revision := rev |}.

Definition targets (k : TargetKind) (s : Store) : gmap (string * string) ObjectMeta :=
  match k with
  | Pod => pods s
  | Service => services s
  | Deployment => deployments s
  end.

Definition setTargets (k : TargetKind) (s : Store)
    (m : gmap (string * string) ObjectMeta) : Store :=
  match k with
  | Pod => {| ttlresources := ttlresources s; pods := m; services := services s;
              deployments := deployments s; clock := clock s; revision := revision s |}
  | Service => {| ttlresources := ttlresources s; pods := pods s; services := m;
              deployments := deployments s; clock := clock s; revision := revision s |}
  | Deployment => {| ttlresources := ttlresources s; pods := pods s;
              services := services s; deployments := m; clock := clock s;
              revision := revision s |}
  end.

Definition storeKey (t : TTLResource) : string * string :=
  (Namespace (Meta t), Name (Meta t)).

(** The server's timestamps have the precision of a second. *)
Definition truncateToSecond (t : Time) : Time := t - t mod Second.

Definition getTTL (key : ObjectKey) (s : Store) : (error + TTLResource) * Store :=
  match ttlresources s !! (key_Namespace key, key_Name key) with
  | Some t => (inr t, s)
  | None => (inl notFound, s)
  end.

Definition getObject (k : TargetKind) (key : ObjectKey) (s : Store)
  : (error + ObjectMeta) * Store :=
  match targets k s !! (key_Namespace key, key_Name key) with
  | Some o => (inr o, s)
  | None => (inl notFound, s)
  end.

Definition create (t : TTLResource) (s : Store) : option error * Store :=
  match ttlresources s !! storeKey t with
  | Some _ => (Some alreadyExists, s)
  | None =>
      let rev := revision s + 1 in
      let stored :=
        {| Meta := {| Name := Name (Meta t); Namespace := Namespace (Meta t);
                      UID := "uid-" +:+ pretty rev;
                      ResourceVersion := rev;
                      CreationTimestamp := truncateToSecond (clock s);
                      DeletionTimestamp := None;
                      Labels := Labels (Meta t);
                      Annotations := Annotations (Meta t);
                      OwnerReferences := OwnerReferences (Meta t) |};
           Spec := Spec t; Status := zeroStatus |} in
      (None, setTTLResources s (<[storeKey t := stored]> (ttlresources s)) rev)
  end.

Definition update (t : TTLResource) (s : Store) : option error * Store :=
  match ttlresources s !! storeKey t with
  | None => (Some notFound, s)
  | Some cur =>
      if negb (ResourceVersion (Meta cur) =? ResourceVersion (Meta t))
      then (Some conflict, s)
      else
        let rev := revision s + 1 in
        (None, setTTLResources s
                 (<[storeKey t := withResourceVersion (withStatus t (Status cur)) rev]>
                    (ttlresources s)) rev)
  end.

Definition statusUpdate (t : TTLResource) (s : Store) : (error + Z) * Store :=
  match ttlresources s !! storeKey t with
  | None => (inl notFound, s)
  | Some cur =>
      if negb (ResourceVersion (Meta cur) =? ResourceVersion (Meta t))
      then (inl conflict, s)
      else
        let rev := revision s + 1 in
        (inr rev, setTTLResources s
                    (<[storeKey t := withResourceVersion (withStatus cur (Status t)) rev]>
                       (ttlresources s)) rev)
  end.

Definition delete (t : TTLResource) (s : Store) : option error * Store :=
  match ttlresources s !! storeKey t with
  | None => (Some notFound, s)
  | Some _ =>
      (None, setTTLResources s (base.delete (storeKey t) (ttlresources s))
                             (revision s + 1))
  end.

Definition deleteObject (k : TargetKind) (namespace name : string) (s : Store)
  : option error * Store :=
  match targets k s !! (namespace, name) with
  | None => (Some notFound, s)
  | Some _ => (None, setTargets k s (base.delete (namespace, name) (targets k s)))
  end.

(** One call: the environment's next move, then the call on the store. *)
Definition serve {A : Type} (v : Verb) (failed : error -> A)
    (op : Store -> A * Store) (w : World) : A * World :=
  let '(env, rest) :=
    match script w with
    | [] => (Proceed, [])
    | e :: rest => (e, rest)
    end in
  let log := (calls w ++ [v])%list in
  match env with
  | Fail err => (failed err, {| store := store w; script := rest; calls := log |})
  | Proceed =>
      let '(a, s) := op (store w) in
      (a, {| store := s; script := rest; calls := log |})
  | Interfere f =>
      let '(a, s) := op (f (store w)) in
      (a, {| store := s; script := rest; calls := log |})
  end.

Definition client : Client World :=
  {| Now := fun w => (clock (store w), w);
     GetTTL := fun key => serve VGet inl (getTTL key);
     GetObject := fun k key => serve (VGetObject k) inl (getObject k key);
     Create := fun t => serve VCreate Some (create t);
     Update := fun t => serve VUpdate Some (update t);
     StatusUpdate := fun t => serve VStatusUpdate inl (statusUpdate t);
     Delete := fun t => serve VDelete Some (delete t);
     DeleteObject := fun k ns name => serve (VDeleteObject k) Some (deleteObject k ns name) |}.

End Fake.

(** ** Concrete inputs

    A Pod [web] in namespace [default] and its TTLResource [ttl-web], made
    at [T0], on the in-memory server. *)
Module Fixtures.
Import Fake.

Definition T0 : Time := 63000000000 * Second.

(** [n] seconds after [T0]. *)
Definition after (n : Z) : Time := T0 + n * Second.

Definition managedLabels : gmap string string :=
  {[ TTLResourceLabelKey := TTLResourceLabelValue;
     "app.kubernetes.io/managed-by" := "ttl-operator" ]}.

Definition webOwner : OwnerReference :=
  {| or_APIVersion := "v1"; or_Kind := "Pod"; or_Name := "web"; or_UID := "uid-web" |}.

Definition recordMeta (uid : string) (labels : gmap string string) : ObjectMeta :=
  {| Name := "ttl-web"; Namespace := "default"; UID := uid; ResourceVersion := 1;
     CreationTimestamp := T0; DeletionTimestamp := None; Labels := labels;
     Annotations := ∅; OwnerReferences := [webOwner] |}.

(** The managed TTLResource of [web] with a TTL and a status. *)
Definition record (ttl : Z) (st : TTLResourceStatus) : TTLResource :=
  {| Meta := recordMeta "uid-1" managedLabels;
     Spec := {| TTLSeconds := ttl |}; Status := st |}.

Definition uninitialized : TTLResourceStatus := zeroStatus.
Definition created : TTLResourceStatus :=
  {| Expired := false; CreatedAt := T0; ExpiredAt := None |}.
Definition scheduled (ttl : Z) : TTLResourceStatus :=
  {| Expired := false; CreatedAt := T0; ExpiredAt := Some (after ttl) |}.
Definition expired (ttl : Z) : TTLResourceStatus :=
  {| Expired := true; CreatedAt := T0; ExpiredAt := Some (after ttl) |}.

(** The Pod with its annotations. *)
Definition web (annotations : gmap string string) : ObjectMeta :=
  {| Name := "web"; Namespace := "default"; UID := "uid-web"; ResourceVersion := 1;
     CreationTimestamp := T0; DeletionTimestamp := None; Labels := ∅;
     Annotations := annotations; OwnerReferences := [] |}.

Definition ttlAnnotation (v : string) : gmap string string :=
  {[ TTLAnnotationKey := v ]}.

Definition recordKey : ObjectKey := {| key_Namespace := "default"; key_Name := "ttl-web" |}.
Definition webKey : ObjectKey := {| key_Namespace := "default"; key_Name := "web" |}.

(** The store with the Pod and the TTLResource, if any, at a time. *)
Definition cluster (pod : option ObjectMeta) (rec : option TTLResource) (now : Time)
  : Store :=
  {| ttlresources :=
       match rec with Some t => {[ ("default", "ttl-web") := t ]} | None => ∅ end;
     pods := match pod with Some o => {[ ("default", "web") := o ]} | None => ∅ end;
     services := ∅; deployments := ∅; clock := now; revision := 1 |}.

Definition world (s : Store) (script : list Env) : World :=
  {| store := s; script := script; calls := [] |}.

(** Somebody deletes the TTLResource and makes it anew under the same
    name: the new object has another UID and resource version. *)
Definition recreate (s : Store) : Store :=
  match ttlresources s !! ("default", "ttl-web") with
  | Some t =>
      setTTLResources s
        (<[("default", "ttl-web") :=
             withResourceVersion
               {| Meta := recordMeta "uid-2" managedLabels;
                  Spec := Spec t; Status := zeroStatus |}
               (revision s + 2)]> (ttlresources s))
        (revision s + 2)
  | None => s
  end.

(** Somebody else writes the TTLResource: it gets a new resource version. *)
Definition touch (s : Store) : Store :=
  match ttlresources s !! ("default", "ttl-web") with
  | Some t =>
      setTTLResources s
        (<[("default", "ttl-web") := withResourceVersion t (revision s + 1)]>
           (ttlresources s))
        (revision s + 1)
  | None => s
  end.

(** A Job as the owner: a kind [deleteOwnerResource] does not know. *)
Definition jobOwner : OwnerReference :=
  {| or_APIVersion := "batch/v1"; or_Kind := "Job"; or_Name := "web";
     or_UID := "uid-job" |}.

(** The Pod annotated with a TTL of 5 seconds. *)
Definition pod5 : ObjectMeta := web (ttlAnnotation "5").

(** The Pod and its record in a given status, [n] seconds after [T0]. *)
Definition scene (ttl : Z) (st : TTLResourceStatus) (n : Z) (script : list Env) : World :=
  world (cluster (Some pod5) (Some (record ttl st)) (after n)) script.

(** The Pod as annotated and the record with a TTL of 5 seconds in the
    store; the Pod alone; the record alone. *)
Definition annotated (annotations : gmap string string) : World :=
  world (cluster (Some (web annotations)) (Some (record 5 (scheduled 5))) (after 1)) [].
Definition retuned : World :=
  world (cluster (Some (web (ttlAnnotation "120"))) (Some (record 60 (scheduled 60)))
                 (after 30)) [].
Definition orphaned : World :=
  world (cluster None (Some (record 5 (expired 5))) (after 6)) [].

(** The world [n] seconds after [T0]: the clock has moved, nothing else. *)
Definition later (n : Z) (w : World) : World :=
  {| store := {| ttlresources := ttlresources (store w); pods := pods (store w);
                 services := services (store w); deployments := deployments (store w);
                 clock := after n; revision := revision (store w) |};
     script := script w; calls := calls w |}.

Definition storedRecord (w : World) : option TTLResource :=
  ttlresources (store w) !! ("default", "ttl-web").
Definition storedPod (w : World) : option ObjectMeta :=
  pods (store w) !! ("default", "web").

End Fixtures.

(** ** More concrete inputs *)
Module Scenes.
Import Fake Fixtures.

(** An error of the server that is neither not-found nor a conflict. *)
Definition timeout : error := StatusError (StatusReasonOther "Timeout").

(** A TTLResource named like the managed one, made by hand: no marker. *)
Definition handmadeRecord : TTLResource :=
  {| Meta := recordMeta "uid-1" ∅; Spec := {| TTLSeconds := 5 |};
     Status := scheduled 5 |}.

(** The record made by hand and no Pod; the Pod and no record; nothing. *)
Definition handmade : World := world (cluster None (Some handmadeRecord) (after 1)) [].
Definition unrecorded : World := world (cluster (Some pod5) None (after 1)) [].
Definition nothing : World := world (cluster None None (after 1)) [].

(** The Pod being deleted, with its record. *)
Definition going : World :=
  world (cluster (Some {| Name := "web"; Namespace := "default"; UID := "uid-web";
                          ResourceVersion := 1; CreationTimestamp := T0;
                          DeletionTimestamp := Some (after 1); Labels := ∅;
                          Annotations := ttlAnnotation "5"; OwnerReferences := [] |})
                 (Some (record 5 (scheduled 5))) (after 1)) [].

(** An owner reference whose apiVersion has two slashes. *)
Definition oddOwner : OwnerReference :=
  {| or_APIVersion := "a/b/c"; or_Kind := "Pod"; or_Name := "web"; or_UID := "uid-web" |}.

End Scenes.

(** ** The kinds of target, as [Reconcile] names them

    [Reconcile] writes the kind and the apiVersion of the target it found
    into the owner reference (lines 83-84, 92-93, 101-102), and
    [deleteOwnerResource] reads them back (lines 455-460). *)
Definition kindNames (k : TargetKind) : string * string :=
  match k with
  | Pod => ("Pod", "v1")
  | Service => ("Service", "v1")
  | Deployment => ("Deployment", "apps/v1")
  end.

Definition kindGVK (k : TargetKind) : GroupVersionKind :=
  match k with
  | Pod => {| Group := ""; Version := "v1"; Kind := "Pod" |}
  | Service => {| Group := ""; Version := "v1"; Kind := "Service" |}
  | Deployment => {| Group := "apps"; Version := "v1"; Kind := "Deployment" |}
  end.

(** What a reconciler returns for an error of a status write in
    [reconcileTTLResource] (lines 300-312, 384-397). *)
Definition statusWriteFailure (err : error) : Outcome :=
  if IsConflict err then ({| Requeue := false; RequeueAfter := Second |}, None)
  else if IsNotFound err then (noRequeue, None)
  else (noRequeue, Some err).

(** A status never goes back: what is set in [a] is the same in [b]. *)
Definition statusKept (a b : TTLResourceStatus) : Prop :=
  (Expired a = true -> Expired b = true)
  /\ (CreatedAt a <> 0 -> CreatedAt b = CreatedAt a)
  /\ (forall e, ExpiredAt a = Some e -> ExpiredAt b = Some e).

(** The way of [Reconcile] to the lookup of the TTLResource of a target:
    the key is no TTLResource, a target is found that is not being
    deleted, and its TTL annotation is a positive integer. *)
Definition annotatedTarget {W : Type} (r : Client W) (req : ObjectKey) (obj : ObjectMeta) (gvk apiVersion : string)
    (n : Z) (w w2 : W) : Prop :=
  exists (err : error) (w1 : W) (v : string),
    GetTTL r req w = (inl err, w1)
    /\ IsNotFound err = true
    /\ ResourceReconciler.probeTarget r req w1 = (inr (obj, gvk, apiVersion), w2)
    /\ DeletionTimestamp obj = None
    /\ Annotations obj !! TTLAnnotationKey = Some v
    /\ Atoi v = Some n
    /\ 0 < n.

(** * Properties *)

(** Unfolds the plumbing of function bodies, leaving the client calls. *)
Ltac unfold_act :=
  cbv beta iota delta [body bind call tail ret return_].

(** Settles a closed side condition by evaluation. *)
Ltac by_evaluation :=
  vm_compute;
  first [ reflexivity | discriminate | intro; discriminate
        | repeat split; first [ reflexivity | congruence ] ].

(** Takes [Reconcile] down the way of [annotatedTarget]. *)
Ltac to_lookup H :=
  destruct H as (err0 & w10 & v0 & Hget0 & Hnf0 & Hprobe0 & Hdel0 & Hann0 & Hatoi0 & Hpos0);
  unfold ResourceReconciler.Reconcile; unfold_act;
  rewrite Hget0, Hnf0; cbn; rewrite Hprobe0, Hdel0; unfold mapIndex; rewrite Hann0; cbn;
  rewrite Hatoi0; apply Z.leb_gt in Hpos0; rewrite Hpos0.

Section Properties.
Context {W : Type} (r : Client W).

(** ** Time arithmetic *)

Lemma wrap64_in_range (z : Z) :
  minInt64 <= z <= maxInt64 -> wrap64 z = z.
Proof.
  unfold wrap64, minInt64, maxInt64. intros Hz.
  rewrite Z.mod_small by lia. lia.
Qed.

(** A TTL of up to 9223372036 seconds (some 292 years), either way, is
    the same number of nanoseconds as a [time.Duration]. *)
Lemma secondsDuration_exact (n : Z) :
  -9223372036 <= n <= 9223372036 -> secondsDuration n = n * 1000000000.
Proof.
  intros Hn. unfold secondsDuration, Duration_mul, Second.
  apply wrap64_in_range. unfold minInt64, maxInt64. lia.
Qed.

Lemma Time_Sub_exact (t u : Time) :
  minInt64 <= t - u <= maxInt64 -> Time_Sub t u = t - u.
Proof.
  intros [Hlo Hhi]. unfold Time_Sub.
  apply Z.leb_le in Hlo. apply Z.leb_le in Hhi. now rewrite Hlo, Hhi.
Qed.

(** The sign of [t.Sub(u)] is that of the difference of the instants. *)
Lemma Time_Sub_nonpos (t u : Time) : t <= u <-> Time_Sub t u <= 0.
Proof.
  unfold Time_Sub, minInt64, maxInt64.
  destruct (Z.leb_spec (- 2 ^ 63) (t - u)), (Z.leb_spec (t - u) (2 ^ 63 - 1)),
    (Z.ltb_spec t u); cbn; lia.
Qed.

(** ** The passes of the two reconcilers over a settled record *)

Lemma initStatus_settled (t : TTLResource) (ea : Time) :
  settled t ea -> ResourceReconciler.initStatus t = (t, false).
Proof.
  intros (_ & Hc & He). unfold ResourceReconciler.initStatus, Time_IsZero.
  apply Z.eqb_neq in Hc. rewrite Hc. now rewrite He.
Qed.

(** TTLResourceReconciler on a settled record that is marked expired,
    or whose deadline the clock has not passed: nothing is written, and
    the delay is [expiredAt.Sub(now)]. *)
Lemma standalone_idle (req : ObjectKey) (t : TTLResource) (ea now : Time)
    (w w1 w2 : W) :
  GetTTL r req w = (inr t, w1) ->
  Now r w1 = (now, w2) ->
  settled t ea ->
  Expired (Status t) = true \/ now <= ea ->
  TTLResourceReconciler.Reconcile r req w
  = (({| Requeue := false; RequeueAfter := Time_Sub ea now |}, None), w2).
Proof.
  intros Hget Hnow (Httl & Hc & He) Hidle.
  unfold TTLResourceReconciler.Reconcile. unfold_act.
  rewrite Hget, Hnow. apply Z.eqb_neq in Httl, Hc.
  unfold Time_IsZero. rewrite Httl, Hc, He.
  replace (negb (Expired (Status t)) && Time_After now ea) with false; [easy |].
  destruct Hidle as [Hx | Hle].
  - now rewrite Hx.
  - unfold Time_After. apply Z.ltb_ge in Hle. rewrite Hle.
    now rewrite andb_false_r.
Qed.

(** [deleteExpiredResources], call by call: the target of the first
    owner reference, whatever comes of it, then the TTLResource. *)
Lemma deleteExpiredResources_calls (t : TTLResource) (w : W) :
  ResourceReconciler.deleteExpiredResources r t w
  = let w1 :=
      match OwnerReferences (Meta t) with
      | ownerRef :: _ =>
          snd (ResourceReconciler.deleteOwnerResource r ownerRef (Namespace (Meta t)) w)
      | [] => w
      end in
    match Delete r t w1 with
    | (Some err, w2) =>
        if IsNotFound err then ((noRequeue, None), w2)
        else ((noRequeue, Some err), w2)
    | (None, w2) => ((noRequeue, None), w2)
    end.
Proof.
  unfold ResourceReconciler.deleteExpiredResources. unfold_act.
  destruct (OwnerReferences (Meta t)) as [| ownerRef rest]; cbn.
  - destruct (Delete r t w) as [[err |] w2]; [destruct (IsNotFound err) |]; easy.
  - destruct (ResourceReconciler.deleteOwnerResource r ownerRef _ w) as [e w1]; cbn.
    destruct (Delete r t w1) as [[err |] w2]; [destruct (IsNotFound err) |]; easy.
Qed.

(** reconcileTTLResource on a record already marked expired: the record
    is read again and, the UID being the same, deleted with its target. *)
Lemma reconcileTTLResource_expired (t latest : TTLResource) (ea now : Time)
    (w w1 w2 : W) :
  Now r w = (now, w1) ->
  settled t ea ->
  Expired (Status t) = true ->
  GetTTL r (keyOf t) w1 = (inr latest, w2) ->
  UID (Meta t) = UID (Meta latest) ->
  ResourceReconciler.reconcileTTLResource r t w
  = ResourceReconciler.deleteExpiredResources r latest w2.
Proof.
  intros Hnow Hs Hx Hget Huid.
  unfold ResourceReconciler.reconcileTTLResource. unfold_act.
  rewrite Hnow, (initStatus_settled _ _ Hs).
  destruct Hs as (Httl & _ & _). apply Z.eqb_neq in Httl. rewrite Httl, Hx.
  unfold ResourceReconciler.getLatest. unfold_act.
  rewrite Hget, Huid, String.eqb_refl. cbn.
  now destruct (ResourceReconciler.deleteExpiredResources r latest w2).
Qed.

(** reconcileTTLResource on a settled record at or after its deadline:
    the record is read again, marked expired, and deleted with its
    target. *)
Lemma reconcileTTLResource_due (t latest : TTLResource) (ea now : Time) (rv : Z)
    (w w1 w2 w3 : W) :
  Now r w = (now, w1) ->
  settled t ea ->
  Expired (Status t) = false ->
  ea <= now ->
  GetTTL r (keyOf t) w1 = (inr latest, w2) ->
  UID (Meta t) = UID (Meta latest) ->
  Expired (Status latest) = false ->
  StatusUpdate r (withExpired latest true) w2 = (inr rv, w3) ->
  ResourceReconciler.reconcileTTLResource r t w
  = ResourceReconciler.deleteExpiredResources r
      (withResourceVersion (withExpired latest true) rv) w3.
Proof.
  intros Hnow Hs Hx Hdue Hget Huid Hlx Hupd.
  unfold ResourceReconciler.reconcileTTLResource. unfold_act.
  rewrite Hnow, (initStatus_settled _ _ Hs).
  destruct Hs as (Httl & _ & He). apply Z.eqb_neq in Httl. rewrite Httl, Hx, He.
  unfold Time_Before. apply Z.ltb_ge in Hdue. rewrite Hdue. cbn.
  unfold ResourceReconciler.getLatest, ResourceReconciler.updateStatus. unfold_act.
  rewrite Hget, Huid, String.eqb_refl. cbn. rewrite Hlx. cbn. rewrite Hupd.
  now destruct (ResourceReconciler.deleteExpiredResources r _ w3).
Qed.

(** reconcileTTLResource on a settled record before its deadline:
    nothing is written, and the delay is [expiredAt.Sub(now)]. *)
Lemma reconcileTTLResource_not_due (t : TTLResource) (ea now : Time) (w w1 : W) :
  Now r w = (now, w1) ->
  settled t ea ->
  Expired (Status t) = false ->
  now < ea ->
  ResourceReconciler.reconcileTTLResource r t w
  = (({| Requeue := false; RequeueAfter := Time_Sub ea now |}, None), w1).
Proof.
  intros Hnow Hs Hx Hlt.
  unfold ResourceReconciler.reconcileTTLResource. unfold_act.
  rewrite Hnow, (initStatus_settled _ _ Hs).
  destruct Hs as (Httl & _ & He). apply Z.eqb_neq in Httl. rewrite Httl, Hx, He.
  unfold Time_Before. apply Z.ltb_lt in Hlt. now rewrite Hlt.
Qed.

(** The UID guard of reconcileTTLResource: when the record read again
    has another UID the pass ends with success right after the read. *)
Lemma reconcileTTLResource_uid_guard (t latest : TTLResource) (ea now : Time)
    (w w1 w2 : W) :
  Now r w = (now, w1) ->
  settled t ea ->
  Expired (Status t) = true \/ ea <= now ->
  GetTTL r (keyOf t) w1 = (inr latest, w2) ->
  UID (Meta t) <> UID (Meta latest) ->
  ResourceReconciler.reconcileTTLResource r t w = ((noRequeue, None), w2).
Proof.
  intros Hnow Hs Hcascade Hget Huid.
  unfold ResourceReconciler.reconcileTTLResource. unfold_act.
  rewrite Hnow, (initStatus_settled _ _ Hs).
  destruct Hs as (Httl & _ & He). apply Z.eqb_neq in Httl. rewrite Httl.
  apply String.eqb_neq in Huid.
  destruct (Expired (Status t)) eqn:Hx.
  - unfold ResourceReconciler.getLatest. unfold_act. now rewrite Hget, Huid.
  - destruct Hcascade as [? | Hdue]; [easy |].
    rewrite He. unfold Time_Before. apply Z.ltb_ge in Hdue. rewrite Hdue. cbn.
    unfold ResourceReconciler.getLatest. unfold_act. now rewrite Hget, Huid.
Qed.

(** A Conflict on [Status().Update] in reconcileTTLResource ends the
    pass with success and a requeue after one second. *)
Lemma updateStatus_conflict (t : TTLResource) (err : error) (w w1 : W) :
  StatusUpdate r t w = (inl err, w1) ->
  IsConflict err = true ->
  ResourceReconciler.updateStatus r t w
  = (inl ({| Requeue := false; RequeueAfter := Second |}, None), w1).
Proof.
  intros Hupd Hc. unfold ResourceReconciler.updateStatus. unfold_act.
  now rewrite Hupd, Hc.
Qed.

(** ** The first pass of reconcileTTLResource *)

(** On a record without CreatedAt and ExpiredAt, reconcileTTLResource
    reads the record again, writes CreatedAt and ExpiredAt in one
    [Status().Update], and goes on, in the same pass, as a pass over the
    record it has written. *)
Lemma reconcileTTLResource_first_pass (t latest : TTLResource) (now : Time) (rv : Z)
    (w w1 w2 w3 : W) :
  Now r w = (now, w1) ->
  TTLSeconds (Spec t) <> 0 ->
  CreatedAt (Status t) = 0 ->
  GetTTL r (keyOf t) w1 = (inr latest, w2) ->
  UID (Meta t) = UID (Meta latest) ->
  TTLSeconds (Spec latest) <> 0 ->
  CreatedAt (Status latest) = 0 ->
  ExpiredAt (Status latest) = None ->
  CreationTimestamp (Meta latest) <> 0 ->
  let written :=
    withExpiredAt (withCreatedAt latest (CreationTimestamp (Meta latest)))
      (Time_Add (CreationTimestamp (Meta latest))
                (secondsDuration (TTLSeconds (Spec latest)))) in
  StatusUpdate r written w2 = (inr rv, w3) ->
  ResourceReconciler.reconcileTTLResource r t w
  = ResourceReconciler.reconcileTTLResource r (withResourceVersion written rv) w3.
Proof.
  intros Hnow Httl Hc Hget Huid Hlttl Hlc Hle Hlts written Hupd.
  assert (Hinit : ResourceReconciler.initStatus latest = (written, true)).
  { unfold ResourceReconciler.initStatus, Time_IsZero. rewrite Hlc. cbn.
    apply Z.eqb_neq in Hlts. now rewrite Hle, Hlts. }
  assert (Hflag : snd (ResourceReconciler.initStatus t) = true).
  { unfold ResourceReconciler.initStatus, Time_IsZero. rewrite Hc. cbn.
    now destruct (ExpiredAt (Status t)), (CreationTimestamp (Meta t) =? 0). }
  assert (Hkey : keyOf (fst (ResourceReconciler.initStatus t)) = keyOf t
                 /\ UID (Meta (fst (ResourceReconciler.initStatus t))) = UID (Meta t)).
  { unfold ResourceReconciler.initStatus, Time_IsZero. rewrite Hc. cbn.
    now destruct (ExpiredAt (Status t)), (CreationTimestamp (Meta t) =? 0). }
  destruct Hkey as [Hkey Huid'].
  assert (Hsettled : ResourceReconciler.initStatus (withResourceVersion written rv)
                     = (withResourceVersion written rv, false)).
  { unfold ResourceReconciler.initStatus, Time_IsZero. cbn.
    apply Z.eqb_neq in Hlts. now rewrite Hlts. }
  unfold ResourceReconciler.reconcileTTLResource at 1. unfold_act.
  rewrite Hnow. apply Z.eqb_neq in Httl. rewrite Httl.
  destruct (ResourceReconciler.initStatus t) as [t' flag] eqn:Hinit_t.
  cbn in Hflag, Hkey, Huid'. subst flag.
  unfold ResourceReconciler.getLatest, ResourceReconciler.updateStatus. unfold_act.
  rewrite Hkey, Hget, Huid', Huid, String.eqb_refl. cbn.
  rewrite Hinit. cbn. rewrite Hupd.
  unfold ResourceReconciler.reconcileTTLResource. unfold_act.
  destruct (Now r w3) as [now' w4]. rewrite Hsettled.
  apply Z.eqb_neq in Hlttl. cbn. now rewrite Hlttl.
Qed.

(** ** C2 *)

(** C2. Unset is absorbing: a reconciliation, by either reconciler, of
    a TTLResource whose [spec.ttlSeconds] is 0 returns success with no
    requeue, and the world it leaves is the one left by reading the
    object and the clock: no status is written and nothing is deleted,
    whatever the other fields and the time. *)
Theorem unset_is_absorbing (req : ObjectKey) (t : TTLResource) (w w1 : W) :
  GetTTL r req w = (inr t, w1) ->
  TTLSeconds (Spec t) = 0 ->
  TTLResourceReconciler.Reconcile r req w = ((noRequeue, None), snd (Now r w1))
  /\ ResourceReconciler.Reconcile r req w = ((noRequeue, None), snd (Now r w1)).
Proof.
  intros Hget Httl. split.
  - unfold TTLResourceReconciler.Reconcile. unfold_act.
    rewrite Hget. destruct (Now r w1) as [now w2]. now rewrite Httl.
  - unfold ResourceReconciler.Reconcile, ResourceReconciler.reconcileTTLResource.
    unfold_act. rewrite Hget. destruct (Now r w1) as [now w2]. now rewrite Httl.
Qed.

(** ** C5 *)

(** What [cleanupTTLResource] does with the TTLResource named after the
    target: one that carries the marker of the resource controller is
    deleted, any other is left alone. *)
Lemma cleanupTTLResource_found (key : ObjectKey) (t : TTLResource) (w w1 : W) :
  GetTTL r {| key_Namespace := key_Namespace key;
              key_Name := "ttl-" +:+ key_Name key |} w = (inr t, w1) ->
  ResourceReconciler.cleanupTTLResource r key w
  = if String.eqb (fst (mapIndex (Labels (Meta t)) TTLResourceLabelKey))
                  TTLResourceLabelValue
    then match Delete r t w1 with
         | (Some err, w2) =>
             if IsNotFound err then ((noRequeue, None), w2)
             else ((noRequeue, Some err), w2)
         | (None, w2) => ((noRequeue, None), w2)
         end
    else ((noRequeue, None), w1).
Proof.
  intros Hget. unfold ResourceReconciler.cleanupTTLResource. unfold_act.
  rewrite Hget.
  destruct (String.eqb _ TTLResourceLabelValue); [| reflexivity].
  destruct (Delete r t w1) as [[err |] w2]; [destruct (IsNotFound err) |]; reflexivity.
Qed.


(** ** C8 *)

(** C8, as the code has it. [deleteOwnerResource] itself turns a
    not-found answer to its delete into success: it returns nil, and its
    caller never sees the not-found.  An owner reference whose group,
    version and kind are not those of a Pod, a Service or a Deployment
    fails with the error "unsupported resource type: ..." without any
    call to the server.  Whatever [deleteOwnerResource] returns, its
    caller [deleteExpiredResources] goes on to delete the TTLResource,
    and its result is that of this delete. *)
Theorem resolver_swallows_not_found (ownerRef : OwnerReference) (namespace : string)
    (g v : string) (w : W) :
  ParseGroupVersion (or_APIVersion ownerRef) = inr (g, v) ->
  let gvk := {| Group := g; Version := v; Kind := or_Kind ownerRef |} in
  (forall (k : TargetKind) (err : error) (w' : W),
     ResourceReconciler.objectForGVK gvk = Some k ->
     DeleteObject r k namespace (or_Name ownerRef) w = (Some err, w') ->
     IsNotFound err = true ->
     ResourceReconciler.deleteOwnerResource r ownerRef namespace w = (None, w'))
  /\ (ResourceReconciler.objectForGVK gvk = None ->
      ResourceReconciler.deleteOwnerResource r ownerRef namespace w
      = (Some (ErrorString ("unsupported resource type: "
                            +:+ GroupVersionKind_String gvk)), w))
  /\ (forall t : TTLResource,
        OwnerReferences (Meta t) = [ownerRef] ->
        Namespace (Meta t) = namespace ->
        ResourceReconciler.deleteExpiredResources r t w
        = match Delete r t
                  (snd (ResourceReconciler.deleteOwnerResource r ownerRef namespace w)) with
          | (Some err, w2) =>
              if IsNotFound err then ((noRequeue, None), w2)
              else ((noRequeue, Some err), w2)
          | (None, w2) => ((noRequeue, None), w2)
          end).
Proof.
  intros Hgv gvk. repeat split.
  - intros k err w' Hk Hdel Hnf. unfold ResourceReconciler.deleteOwnerResource.
    rewrite Hgv. fold gvk. now rewrite Hk, Hdel, Hnf.
  - intros Hk. unfold ResourceReconciler.deleteOwnerResource.
    rewrite Hgv. fold gvk. now rewrite Hk.
  - intros t Howner Hns. rewrite deleteExpiredResources_calls. cbn zeta.
    now rewrite Howner, Hns.
Qed.

(** ** C7 *)

(** C7, as the code has it. On the first reconciliation of a record
    (CreatedAt not set, a TTL other than 0) TTLResourceReconciler writes
    the record with CreatedAt copied from its creation timestamp and
    nothing else changed, and returns a requeue when the write succeeds,
    without going on to ExpiredAt.  ResourceReconciler instead writes
    CreatedAt and ExpiredAt together, in one [Status().Update], and goes
    on in the same pass as over the record it has written: up to the
    expiry check and the delay or the deletion that follows from it. *)
Theorem first_observation (req : ObjectKey) (t : TTLResource) (now : Time) (rv : Z)
    (w w1 w2 w3 w4 : W) :
  GetTTL r req w = (inr t, w1) ->
  Now r w1 = (now, w2) ->
  TTLSeconds (Spec t) <> 0 ->
  CreatedAt (Status t) = 0 ->
  ExpiredAt (Status t) = None ->
  CreationTimestamp (Meta t) <> 0 ->
  GetTTL r (keyOf t) w2 = (inr t, w3) ->
  let created := withCreatedAt t (CreationTimestamp (Meta t)) in
  let both :=
    withExpiredAt created
      (Time_Add (CreationTimestamp (Meta t)) (secondsDuration (TTLSeconds (Spec t)))) in
  StatusUpdate r both w3 = (inr rv, w4) ->
  TTLResourceReconciler.Reconcile r req w
  = match StatusUpdate r created w2 with
    | (inl e, w') => ((noRequeue, Some e), w')
    | (inr _, w') => (({| Requeue := true; RequeueAfter := 0 |}, None), w')
    end
  /\ Status created
     = {| Expired := Expired (Status t); CreatedAt := CreationTimestamp (Meta t);
          ExpiredAt := None |}
  /\ ResourceReconciler.Reconcile r req w
     = ResourceReconciler.reconcileTTLResource r (withResourceVersion both rv) w4
  /\ settled (withResourceVersion both rv)
       (Time_Add (CreationTimestamp (Meta t)) (secondsDuration (TTLSeconds (Spec t)))).
Proof.
  intros Hget Hnow Httl Hc He Hts Hreread created both Hupd.
  repeat split.
  - unfold TTLResourceReconciler.Reconcile. unfold_act.
    rewrite Hget, Hnow. pose proof Httl as Httl'. apply Z.eqb_neq in Httl'.
    rewrite Httl'. unfold Time_IsZero. rewrite Hc. cbn. fold created.
    now destruct (StatusUpdate r created w2) as [[e | rv'] w'].
  - unfold created, withCreatedAt. cbn. now rewrite He.
  - transitivity (ResourceReconciler.reconcileTTLResource r t w1).
    + unfold ResourceReconciler.Reconcile. unfold_act. rewrite Hget.
      now destruct (ResourceReconciler.reconcileTTLResource r t w1).
    + now apply (reconcileTTLResource_first_pass t t now rv w1 w2 w3 w4).
  - exact Httl.
  - exact Hts.
Qed.

(** ** C9 *)

(** A negative TTL of at most 9223372036 seconds is a negative duration. *)
Lemma secondsDuration_negative (n : Z) :
  -9223372036 <= n < 0 -> secondsDuration n < 0.
Proof. intros Hn. rewrite secondsDuration_exact; lia. Qed.


(** ** C10 *)


End Properties.

(** * Runs on the in-memory server *)

Import Fake Fixtures.

(** ** C1 *)

(** C1. The record is scheduled at [T0] with a TTL of 5 seconds and the
    clock stands at [T0] + 5 s exactly.  TTLResourceReconciler tests
    [now.After(expiredAt)]: at the deadline it does not expire the
    record; it writes nothing and returns a delay of 0, which asks for no
    requeue at all.  ResourceReconciler tests [!now.Before(expiredAt)]:
    on the same world it marks the record expired and deletes the Pod and
    the record. *)
Theorem standalone_misses_the_deadline :
  let standalone := TTLResourceReconciler.Reconcile client recordKey (scene 5 (scheduled 5) 5 []) in
  let delegated := ResourceReconciler.Reconcile client recordKey (scene 5 (scheduled 5) 5 []) in
  (fst standalone = ({| Requeue := false; RequeueAfter := 0 |}, None)
   /\ calls (snd standalone) = [VGet]
   /\ Status <$> storedRecord (snd standalone) = Some (scheduled 5)
   /\ Name <$> storedPod (snd standalone) = Some "web")
  /\ (fst delegated = (noRequeue, None)
      /\ calls (snd delegated) = [VGet; VGet; VStatusUpdate; VDeleteObject Pod; VDelete]
      /\ storedRecord (snd delegated) = None
      /\ storedPod (snd delegated) = None).
Proof. vm_compute. repeat split. Qed.

(** One second past the deadline TTLResourceReconciler does expire the
    record; it deletes the record and leaves the Pod. *)
Example standalone_expires_after_the_deadline :
  let standalone := TTLResourceReconciler.Reconcile client recordKey (scene 5 (scheduled 5) 6 []) in
  fst standalone = (noRequeue, None)
  /\ calls (snd standalone) = [VGet; VStatusUpdate; VDelete]
  /\ storedRecord (snd standalone) = None
  /\ Name <$> storedPod (snd standalone) = Some "web".
Proof. vm_compute. repeat split. Qed.

(** ** C3 *)

(** C3. The record is seen for the first time, and somebody else writes
    it between the reconciler's read and its [Status().Update], which
    the server refuses with Conflict.  TTLResourceReconciler returns the
    Conflict as its error.  ResourceReconciler, hit by the same
    interference before its own [Status().Update], returns success with
    a requeue after one second. *)
Theorem standalone_surfaces_conflict :
  let standalone :=
    TTLResourceReconciler.Reconcile client recordKey
      (scene 5 uninitialized 1 [Proceed; Interfere touch]) in
  let delegated :=
    ResourceReconciler.Reconcile client recordKey
      (scene 5 uninitialized 1 [Proceed; Proceed; Interfere touch]) in
  (fst standalone = (noRequeue, Some (StatusError StatusReasonConflict))
   /\ calls (snd standalone) = [VGet; VStatusUpdate])
  /\ (fst delegated = ({| Requeue := false; RequeueAfter := Second |}, None)
      /\ calls (snd delegated) = [VGet; VGet; VStatusUpdate]).
Proof. vm_compute. repeat split. Qed.

(** ** C4 *)

(** C4. The record is past its deadline, and after the reconciler's first
    read somebody deletes it and makes it anew under the same name.
    ResourceReconciler reads the record again, finds another UID and
    returns success without a write.  TTLResourceReconciler reads the
    record once only and compares no UID: it sends the [Status().Update]
    that marks the old object expired, and returns the server's Conflict
    as its error. *)
Theorem standalone_has_no_uid_guard :
  let standalone :=
    TTLResourceReconciler.Reconcile client recordKey
      (scene 5 (scheduled 5) 6 [Proceed; Interfere recreate]) in
  let delegated :=
    ResourceReconciler.Reconcile client recordKey
      (scene 5 (scheduled 5) 6 [Proceed; Interfere recreate]) in
  (fst standalone = (noRequeue, Some (StatusError StatusReasonConflict))
   /\ calls (snd standalone) = [VGet; VStatusUpdate]
   /\ (UID ∘ Meta) <$> storedRecord (snd standalone) = Some "uid-2")
  /\ (fst delegated = (noRequeue, None)
      /\ calls (snd delegated) = [VGet; VGet]
      /\ (UID ∘ Meta) <$> storedRecord (snd delegated) = Some "uid-2").
Proof. vm_compute. repeat split. Qed.

(** ** C2 *)

(** A record with a TTL of 0, a hundred seconds after it was made: both
    reconcilers return success and leave the world as it is after the
    read. *)
Lemma unset_is_absorbing_witness :
  let w := scene 0 uninitialized 100 [] in
  let w1 := snd (GetTTL client recordKey w) in
  GetTTL client recordKey w = (inr (record 0 uninitialized), w1)
  /\ TTLSeconds (Spec (record 0 uninitialized)) = 0
  /\ TTLResourceReconciler.Reconcile client recordKey w
     = ((noRequeue, None), snd (Now client w1))
  /\ ResourceReconciler.Reconcile client recordKey w
     = ((noRequeue, None), snd (Now client w1)).
Proof.
  intros w w1.
  assert (Hget : GetTTL client recordKey w = (inr (record 0 uninitialized), w1))
    by by_evaluation.
  assert (Httl : TTLSeconds (Spec (record 0 uninitialized)) = 0) by reflexivity.
  exact (conj Hget (conj Httl (unset_is_absorbing client recordKey _ w w1 Hget Httl))).
Defined.

(** ** C5 *)



(** ** C7 *)

(** The record is seen for the first time, one second after it was made.
    [ResourceReconciler.Reconcile] writes CreatedAt and ExpiredAt in one
    [Status().Update] and returns the four seconds that are left, not a
    plain requeue. *)
Lemma first_pass_writes_expiredAt :
  let run := ResourceReconciler.Reconcile client recordKey (scene 5 uninitialized 1 []) in
  fst run = ({| Requeue := false; RequeueAfter := 4 * Second |}, None)
  /\ calls (snd run) = [VGet; VGet; VStatusUpdate]
  /\ Status <$> storedRecord (snd run)
     = Some {| Expired := false; CreatedAt := T0; ExpiredAt := Some (after 5) |}.
Proof. vm_compute. repeat split. Qed.

(** The same first observation, by both reconcilers. *)
Lemma first_observation_witness :
  let w := scene 5 uninitialized 1 [] in
  let t := record 5 uninitialized in
  let w2 := snd (Now client (snd (GetTTL client recordKey w))) in
  let w4 := snd (StatusUpdate client (withExpiredAt (withCreatedAt t T0) (after 5))
                   (snd (GetTTL client recordKey w2))) in
  TTLResourceReconciler.Reconcile client recordKey w
  = match StatusUpdate client (withCreatedAt t T0) w2 with
    | (inl e, w') => ((noRequeue, Some e), w')
    | (inr _, w') => (({| Requeue := true; RequeueAfter := 0 |}, None), w')
    end
  /\ ResourceReconciler.Reconcile client recordKey w
     = ResourceReconciler.reconcileTTLResource client
         (withResourceVersion (withExpiredAt (withCreatedAt t T0) (after 5)) 2) w4.
Proof.
  intros w t w2 w4.
  destruct (first_observation client recordKey t (after 1) 2
              w (snd (GetTTL client recordKey w)) w2
              (snd (GetTTL client recordKey w2)) w4
              ltac:(by_evaluation) ltac:(by_evaluation) ltac:(by_evaluation)
              ltac:(by_evaluation) ltac:(by_evaluation) ltac:(by_evaluation)
              ltac:(by_evaluation) ltac:(by_evaluation))
    as (Hstandalone & _ & Hdelegated & _).
  split; [exact Hstandalone | exact Hdelegated].
Defined.

(** ** C8 *)

(** The Pod is gone and the server answers the delete with not-found:
    [deleteOwnerResource] returns nil. *)
Lemma resolver_hides_not_found :
  fst (DeleteObject client Pod "default" "web" orphaned) = Some notFound
  /\ fst (ResourceReconciler.deleteOwnerResource client webOwner "default" orphaned) = None.
Proof. vm_compute. repeat split. Qed.

(** The owner reference of the Pod that is gone, and that of a Job. *)
Lemma resolver_swallows_not_found_witness :
  ResourceReconciler.deleteOwnerResource client webOwner "default" orphaned
  = (None, snd (DeleteObject client Pod "default" "web" orphaned))
  /\ ResourceReconciler.deleteOwnerResource client jobOwner "default" orphaned
     = (Some (ErrorString "unsupported resource type: batch/v1, Kind=Job"), orphaned).
Proof.
  split.
  - refine (proj1 (resolver_swallows_not_found client webOwner "default" "" "v1" orphaned _)
              Pod notFound _ _ _ _); by_evaluation.
  - refine (proj1 (proj2 (resolver_swallows_not_found client jobOwner "default"
                            "batch" "v1" orphaned _)) _); by_evaluation.
Defined.

(** ** C6 *)

(** C6. The record was made at [T0] with a TTL of 60 seconds and is
    scheduled for [T0] + 60 s; thirty seconds later the Pod's annotation
    says 120.  [Reconcile] of the Pod sets the new TTL and an empty
    status on the record and sends it with [Update] (lines 145-148), and
    the server, which keeps the status of a TTLResource apart from the
    object, stores the new TTL and leaves the status as it was: CreatedAt
    and ExpiredAt stay, and ExpiredAt is still [T0] + 60 s.  The record's
    next reconciliation finds nothing to write and returns the thirty
    seconds left of the old TTL, and at [T0] + 60 s, sixty seconds before
    the deadline of the new TTL, the Pod and the record are deleted. *)
Theorem spec_change_keeps_old_deadline :
  let pass := ResourceReconciler.Reconcile client webKey retuned in
  let next := ResourceReconciler.Reconcile client recordKey (snd pass) in
  let due := ResourceReconciler.Reconcile client recordKey (later 60 (snd next)) in
  (fst pass = (noRequeue, None)
   /\ calls (snd pass) = [VGet; VGetObject Pod; VGet; VUpdate]
   /\ Spec <$> storedRecord (snd pass) = Some {| TTLSeconds := 120 |}
   /\ Status <$> storedRecord (snd pass) = Some (scheduled 60))
  /\ (fst next = ({| Requeue := false; RequeueAfter := 30 * Second |}, None)
      /\ calls (snd next) = [VGet; VGetObject Pod; VGet; VUpdate; VGet]
      /\ Status <$> storedRecord (snd next) = Some (scheduled 60)
      /\ Name <$> storedPod (snd next) = Some "web")
  /\ (fst due = (noRequeue, None)
      /\ calls (snd due)
         = [VGet; VGetObject Pod; VGet; VUpdate; VGet;
            VGet; VGet; VStatusUpdate; VDeleteObject Pod; VDelete]
      /\ storedRecord (snd due) = None
      /\ storedPod (snd due) = None).
Proof. vm_compute. repeat split. Qed.

(** ** C9 *)



(** ** C10 *)



(** * Further properties of the reconcilers *)

Section Coverage.
Context {W : Type} (r : Client W).

(** A positive difference of instants is a positive [t.Sub(u)]. *)
Lemma Time_Sub_pos (t u : Time) : u < t -> 0 < Time_Sub t u.
Proof.
  unfold Time_Sub, minInt64, maxInt64. intros Hlt.
  destruct (Z.leb_spec (- 2 ^ 63) (t - u)), (Z.leb_spec (t - u) (2 ^ 63 - 1)),
    (Z.ltb_spec t u); cbn; lia.
Qed.

(** [ResourceReconciler.Reconcile] of a key that is a TTLResource is
    [reconcileTTLResource] of that object. *)
Lemma Reconcile_delegates (req : ObjectKey) (t : TTLResource) (w w1 : W) :
  GetTTL r req w = (inr t, w1) ->
  ResourceReconciler.Reconcile r req w = ResourceReconciler.reconcileTTLResource r t w1.
Proof.
  intros Hget. unfold ResourceReconciler.Reconcile. unfold_act. rewrite Hget.
  now destruct (ResourceReconciler.reconcileTTLResource r t w1).
Qed.

(** ** Status initialisation (resource_controller.go, lines 254-265) *)

(** X1. Status initialisation overwrites nothing and is idempotent: it
    leaves the metadata, the spec and the expired flag alone, keeps a
    CreatedAt and an ExpiredAt that are set, and run on its own result it
    changes nothing more.  It asks for a write again only for an object
    whose CreatedAt is still zero, that is one without a creation
    timestamp. *)
Theorem initStatus_keeps_and_settles (t : TTLResource) :
  let t' := fst (ResourceReconciler.initStatus t) in
  Meta t' = Meta t
  /\ Spec t' = Spec t
  /\ Expired (Status t') = Expired (Status t)
  /\ statusKept (Status t) (Status t')
  /\ fst (ResourceReconciler.initStatus t') = t'
  /\ (snd (ResourceReconciler.initStatus t') = true <-> CreatedAt (Status t') = 0)
  /\ (CreatedAt (Status t') = 0 <->
      CreatedAt (Status t) = 0 /\ CreationTimestamp (Meta t) = 0).
Proof.
  destruct t as [m sp [x c e]].
  unfold ResourceReconciler.initStatus, Time_IsZero, statusKept,
    withExpiredAt, withCreatedAt, withStatus.
  cbn.
  destruct e as [e |];
    repeat (match goal with
            | |- context [?a =? 0] => destruct (Z.eqb_spec a 0)
            end; cbn);
    repeat split; intros; subst; try congruence; try lia; try easy.
Qed.

(** X2. The first status of a record: with a creation timestamp [c] and
    a TTL of at most 9223372036 seconds either way, status initialisation
    of a record without CreatedAt and ExpiredAt sets CreatedAt to [c] and
    ExpiredAt to [c] plus the TTL in nanoseconds, and asks for the write;
    ExpiredAt lies after CreatedAt exactly when the TTL is positive. *)
Theorem initStatus_first (t : TTLResource) :
  CreatedAt (Status t) = 0 ->
  ExpiredAt (Status t) = None ->
  CreationTimestamp (Meta t) <> 0 ->
  -9223372036 <= TTLSeconds (Spec t) <= 9223372036 ->
  let c := CreationTimestamp (Meta t) in
  ResourceReconciler.initStatus t
  = (withStatus t {| Expired := Expired (Status t); CreatedAt := c;
                     ExpiredAt := Some (c + TTLSeconds (Spec t) * 1000000000) |}, true)
  /\ (c < c + TTLSeconds (Spec t) * 1000000000 <-> 0 < TTLSeconds (Spec t)).
Proof.
  intros Hc He Hts Hrange c. split; [| lia].
  unfold ResourceReconciler.initStatus, Time_IsZero. rewrite Hc. cbn.
  apply Z.eqb_neq in Hts. rewrite He, Hts. cbn.
  unfold withExpiredAt, withCreatedAt, withStatus, Time_Add. cbn.
  now rewrite (secondsDuration_exact _ Hrange).
Qed.


(** ** The timer of ResourceReconciler (lines 350-406) *)

(** X3. The timer of the delegation path. On a record with CreatedAt and
    ExpiredAt that is not marked expired, [ResourceReconciler.Reconcile]
    acts at the deadline and not before: while the clock is before
    ExpiredAt it writes nothing and returns the delay
    [expiredAt.Sub(now)], which is positive; from ExpiredAt on it reads
    the record again, marks it expired and goes on to
    [deleteExpiredResources] with the record it has marked. *)
Theorem delegated_timer (req : ObjectKey) (t : TTLResource) (ea now : Time)
    (w w1 w2 : W) :
  GetTTL r req w = (inr t, w1) ->
  Now r w1 = (now, w2) ->
  settled t ea ->
  Expired (Status t) = false ->
  (now < ea ->
   ResourceReconciler.Reconcile r req w
   = (({| Requeue := false; RequeueAfter := Time_Sub ea now |}, None), w2)
   /\ 0 < Time_Sub ea now)
  /\ (forall (latest : TTLResource) (rv : Z) (w3 w4 : W),
        ea <= now ->
        GetTTL r (keyOf t) w2 = (inr latest, w3) ->
        UID (Meta t) = UID (Meta latest) ->
        Expired (Status latest) = false ->
        StatusUpdate r (withExpired latest true) w3 = (inr rv, w4) ->
        ResourceReconciler.Reconcile r req w
        = ResourceReconciler.deleteExpiredResources r
            (withResourceVersion (withExpired latest true) rv) w4).
Proof.
  intros Hget Hnow Hs Hx.
  rewrite (Reconcile_delegates req t w w1 Hget). split.
  - intros Hlt. split; [| now apply Time_Sub_pos].
    now apply reconcileTTLResource_not_due.
  - intros latest rv w3 w4 Hle Hreread Huid Hlx Hupd.
    now apply (reconcileTTLResource_due r t latest ea now rv w1 w2 w3 w4).
Qed.

(** X4. A status write that fails in the delegation path. When the
    [Status().Update] of [ResourceReconciler.Reconcile] fails, be it the
    one that writes CreatedAt and ExpiredAt on the first pass or the one
    that marks a due record expired, the reconciliation ends there,
    without a delete: with success and a requeue after one second on
    Conflict, with plain success when the record is not found, and with
    the error otherwise. *)
Theorem delegated_status_write_failure (req : ObjectKey) (t latest : TTLResource)
    (now : Time) (err : error) (w w1 w2 w3 w4 : W) :
  GetTTL r req w = (inr t, w1) ->
  Now r w1 = (now, w2) ->
  GetTTL r (keyOf t) w2 = (inr latest, w3) ->
  UID (Meta t) = UID (Meta latest) ->
  (TTLSeconds (Spec t) <> 0 ->
   CreatedAt (Status t) = 0 ->
   StatusUpdate r (fst (ResourceReconciler.initStatus latest)) w3 = (inl err, w4) ->
   ResourceReconciler.Reconcile r req w = (statusWriteFailure err, w4))
  /\ (forall ea : Time,
        settled t ea ->
        Expired (Status t) = false ->
        ea <= now ->
        Expired (Status latest) = false ->
        StatusUpdate r (withExpired latest true) w3 = (inl err, w4) ->
        ResourceReconciler.Reconcile r req w = (statusWriteFailure err, w4)).
Proof.
  intros Hget Hnow Hreread Huid.
  rewrite (Reconcile_delegates req t w w1 Hget). split.
  - intros Httl Hc Hupd.
    assert (Hflag : snd (ResourceReconciler.initStatus t) = true
                    /\ keyOf (fst (ResourceReconciler.initStatus t)) = keyOf t
                    /\ UID (Meta (fst (ResourceReconciler.initStatus t))) = UID (Meta t)).
    { unfold ResourceReconciler.initStatus, Time_IsZero. rewrite Hc. cbn.
      now destruct (ExpiredAt (Status t)), (CreationTimestamp (Meta t) =? 0). }
    destruct Hflag as (Hflag & Hkey & Huid').
    unfold ResourceReconciler.reconcileTTLResource. unfold_act.
    rewrite Hnow. apply Z.eqb_neq in Httl. rewrite Httl.
    destruct (ResourceReconciler.initStatus t) as [t' flag].
    cbn in Hflag, Hkey, Huid'. subst flag.
    unfold ResourceReconciler.getLatest, ResourceReconciler.updateStatus. unfold_act.
    rewrite Hkey, Hreread, Huid', Huid, String.eqb_refl. cbn. rewrite Hupd.
    unfold statusWriteFailure. now destruct (IsConflict err), (IsNotFound err).
  - intros ea Hs Hx Hdue Hlx Hupd.
    unfold ResourceReconciler.reconcileTTLResource. unfold_act.
    rewrite Hnow, (initStatus_settled _ _ Hs).
    destruct Hs as (Httl & _ & He). apply Z.eqb_neq in Httl. rewrite Httl, Hx, He.
    unfold Time_Before. apply Z.ltb_ge in Hdue. rewrite Hdue. cbn.
    unfold ResourceReconciler.getLatest, ResourceReconciler.updateStatus. unfold_act.
    rewrite Hreread, Huid, String.eqb_refl. cbn. rewrite Hlx. cbn. rewrite Hupd.
    unfold statusWriteFailure. now destruct (IsConflict err), (IsNotFound err).
Qed.

(** X5. The second read before the cascade. When a record is marked
    expired or due, [ResourceReconciler.Reconcile] reads it again before
    it writes or deletes anything, and ends right after this read when
    the record is gone (success), when the read fails (the error), or
    when the record has another UID (success). *)
Theorem delegated_second_read (req : ObjectKey) (t : TTLResource) (ea now : Time)
    (w w1 w2 w3 : W) :
  GetTTL r req w = (inr t, w1) ->
  Now r w1 = (now, w2) ->
  settled t ea ->
  Expired (Status t) = true \/ ea <= now ->
  (forall err : error,
     GetTTL r (keyOf t) w2 = (inl err, w3) ->
     ResourceReconciler.Reconcile r req w
     = ((noRequeue, if IsNotFound err then None else Some err), w3))
  /\ (forall latest : TTLResource,
        GetTTL r (keyOf t) w2 = (inr latest, w3) ->
        UID (Meta t) <> UID (Meta latest) ->
        ResourceReconciler.Reconcile r req w = ((noRequeue, None), w3)).
Proof.
  intros Hget Hnow Hs Hcascade.
  rewrite (Reconcile_delegates req t w w1 Hget). split.
  - intros err Hreread.
    unfold ResourceReconciler.reconcileTTLResource. unfold_act.
    rewrite Hnow, (initStatus_settled _ _ Hs).
    destruct Hs as (Httl & _ & He). apply Z.eqb_neq in Httl. rewrite Httl.
    destruct (Expired (Status t)) eqn:Hx.
    + unfold ResourceReconciler.getLatest. unfold_act. rewrite Hreread.
      now destruct (IsNotFound err).
    + destruct Hcascade as [? | Hdue]; [easy |].
      rewrite He. unfold Time_Before. apply Z.ltb_ge in Hdue. rewrite Hdue. cbn.
      unfold ResourceReconciler.getLatest. unfold_act. rewrite Hreread.
      now destruct (IsNotFound err).
  - intros latest Hreread Huid.
    now apply (reconcileTTLResource_uid_guard r t latest ea now w1 w2 w3).
Qed.

(** ** [Reconcile] of a target (lines 117-208) *)

(** X6. A target whose TTLResource is there. With the same TTL in the
    annotation and in the record, [Reconcile] writes nothing: a trigger
    delivered again is a no-op.  With another TTL it calls [Update] once,
    with the new TTL and an empty status, and returns success when the
    update succeeds and also when it fails with Conflict (no requeue: the
    record's own reconciliation is relied on); any other error is
    returned. *)
Theorem target_with_record (req : ObjectKey) (obj : ObjectMeta) (gvk apiVersion : string)
    (n : Z) (existing : TTLResource) (w w2 w3 : W) :
  annotatedTarget r req obj gvk apiVersion n w w2 ->
  GetTTL r {| key_Namespace := key_Namespace req; key_Name := "ttl-" +:+ Name obj |} w2
  = (inr existing, w3) ->
  (TTLSeconds (Spec existing) = n ->
   ResourceReconciler.Reconcile r req w = ((noRequeue, None), w3))
  /\ (TTLSeconds (Spec existing) <> n ->
      ResourceReconciler.Reconcile r req w
      = match Update r (withStatus (withSpec existing {| TTLSeconds := n |}) zeroStatus) w3 with
        | (None, w4) => ((noRequeue, None), w4)
        | (Some e, w4) =>
            ((noRequeue, if IsConflict e then None else Some e), w4)
        end).
Proof.
  intros Hway Hex. split.
  - intros Hsame. to_lookup Hway. rewrite Hex.
    apply Z.eqb_eq in Hsame. now rewrite Hsame.
  - intros Hne. to_lookup Hway. rewrite Hex.
    apply Z.eqb_neq in Hne. rewrite Hne. cbn.
    destruct (Update r _ w3) as [[e |] w4]; [now destruct (IsConflict e) | reflexivity].
Qed.

(** X7. A target without a TTLResource. When the lookup of the record
    fails with an error other than not-found, [Reconcile] returns this
    error and makes no further call.  When the record is not found,
    [Reconcile] calls [Create] once, for the record named "ttl-" and the
    target's name in the namespace of the request, with the marker of the
    resource controller, the TTL of the annotation, an empty status and
    one owner reference, to the target; it returns success when the
    create succeeds and also when the record already exists, and the
    error otherwise. *)
Theorem target_without_record (req : ObjectKey) (obj : ObjectMeta)
    (gvk apiVersion : string) (n : Z) (err : error) (w w2 w3 : W) :
  annotatedTarget r req obj gvk apiVersion n w w2 ->
  GetTTL r {| key_Namespace := key_Namespace req; key_Name := "ttl-" +:+ Name obj |} w2
  = (inl err, w3) ->
  let made := ResourceReconciler.newTTLResource req obj gvk apiVersion n in
  ResourceReconciler.Reconcile r req w
  = (if IsNotFound err then
       match Create r made w3 with
       | (None, w4) => ((noRequeue, None), w4)
       | (Some e, w4) => ((noRequeue, if IsAlreadyExists e then None else Some e), w4)
       end
     else ((noRequeue, Some err), w3))
  /\ keyOf made = {| key_Namespace := key_Namespace req; key_Name := "ttl-" +:+ Name obj |}
  /\ Labels (Meta made) !! TTLResourceLabelKey = Some TTLResourceLabelValue
  /\ TTLSeconds (Spec made) = n
  /\ Status made = zeroStatus
  /\ OwnerReferences (Meta made)
     = [ {| or_APIVersion := apiVersion; or_Kind := gvk;
            or_Name := Name obj; or_UID := UID obj |} ].
Proof.
  intros Hway Hex made. split; [| repeat split].
  to_lookup Hway. rewrite Hex. destruct (IsNotFound err); cbn; [| reflexivity].
  fold made.
  destruct (Create r made w3) as [[e |] w4]; [now destruct (IsAlreadyExists e) | reflexivity].
Qed.

(** ** Finding the target (lines 74-115) *)

(** The target [probeTarget] hands on is one of the three kinds, read
    under the key of the request, and comes with the names of its kind. *)
Lemma probeTarget_found (req : ObjectKey) (obj : ObjectMeta) (gvk apiVersion : string)
    (w w' : W) :
  ResourceReconciler.probeTarget r req w = (inr (obj, gvk, apiVersion), w') ->
  exists (k : TargetKind) (wk : W),
    GetObject r k req wk = (inr obj, w') /\ (gvk, apiVersion) = kindNames k.
Proof.
  unfold ResourceReconciler.probeTarget. unfold_act.
  destruct (GetObject r Pod req w) as [[e1 | o1] w1] eqn:H1.
  - destruct (IsNotFound e1); cbn; [| discriminate].
    destruct (GetObject r Service req w1) as [[e2 | o2] w2] eqn:H2.
    + destruct (IsNotFound e2); cbn; [| discriminate].
      destruct (GetObject r Deployment req w2) as [[e3 | o3] w3] eqn:H3.
      * destruct (IsNotFound e3); cbn; [| discriminate].
        destruct (ResourceReconciler.cleanupTTLResource r req w3). discriminate.
      * intros [= <- <- <- <-]. now exists Deployment, w2.
    + intros [= <- <- <- <-]. now exists Service, w1.
  - intros [= <- <- <- <-]. now exists Pod, w.
Qed.


(** X9. The kinds [deleteOwnerResource] knows. Its switch accepts the
    three triples of group, version and kind of a Pod, a Service and a
    Deployment, letter for letter, and nothing else; an apiVersion with
    more than one slash is refused as "invalid apiVersion"; in both cases
    of refusal no call is made. *)
Theorem supported_kinds (ownerRef : OwnerReference) (namespace : string) (w : W) :
  (forall (gvk : GroupVersionKind) (k : TargetKind),
     ResourceReconciler.objectForGVK gvk = Some k <-> gvk = kindGVK k)
  /\ (forall g v : string,
        ParseGroupVersion (or_APIVersion ownerRef) = inr (g, v) ->
        (forall k, {| Group := g; Version := v; Kind := or_Kind ownerRef |} <> kindGVK k) ->
        ResourceReconciler.deleteOwnerResource r ownerRef namespace w
        = (Some (ErrorString
                   ("unsupported resource type: "
                    +:+ GroupVersionKind_String
                          {| Group := g; Version := v; Kind := or_Kind ownerRef |})), w))
  /\ ((1 < strings_Count "/" (or_APIVersion ownerRef))%nat ->
      ResourceReconciler.deleteOwnerResource r ownerRef namespace w
      = (Some (WrapError "invalid apiVersion: "
                 (ErrorString ("unexpected GroupVersion string: "
                               +:+ or_APIVersion ownerRef))), w)).
Proof.
  assert (Hchar : forall (gvk : GroupVersionKind) (k : TargetKind),
             ResourceReconciler.objectForGVK gvk = Some k <-> gvk = kindGVK k).
  { intros [g v kd] k. unfold ResourceReconciler.objectForGVK, GroupVersionKind_eqb.
    cbv [Group Version Kind].
    split.
    - destruct (String.eqb g "" && String.eqb v "v1" && String.eqb kd "Pod") eqn:H1;
        [| destruct (String.eqb g "" && String.eqb v "v1" && String.eqb kd "Service") eqn:H2;
           [| destruct (String.eqb g "apps" && String.eqb v "v1"
                        && String.eqb kd "Deployment") eqn:H3]];
        intros Heq; try discriminate Heq; injection Heq as <-;
        match goal with
        | H : _ && _ && _ = true |- _ =>
            apply andb_prop in H; destruct H as [H Hk];
            apply andb_prop in H; destruct H as [Hg Hv];
            apply String.eqb_eq in Hg, Hv, Hk; now subst
        end.
    - destruct k; intros [= -> -> ->]; reflexivity. }
  split; [exact Hchar | split].
  - intros g v Hgv Hnone. unfold ResourceReconciler.deleteOwnerResource. rewrite Hgv.
    destruct (ResourceReconciler.objectForGVK _) as [k |] eqn:Hk.
    + apply Hchar in Hk. now destruct (Hnone k).
    + reflexivity.
  - intros Hcount. unfold ResourceReconciler.deleteOwnerResource, ParseGroupVersion.
    destruct (or_APIVersion ownerRef) as [| c rest] eqn:Hv; [cbn in Hcount; lia |].
    destruct (String.eqb_spec (String c rest) "/") as [Heq | Hne].
    + rewrite Heq in Hcount. cbn in Hcount. lia.
    + cbn [String.eqb orb].
      replace (String.eqb (String c rest) "") with false by reflexivity. cbn [orb].
      destruct (strings_Count "/" (String c rest)) as [| [| m]]; [lia | lia |].
      reflexivity.
Qed.

(** X10. A target that is gone or going. When the key is no TTLResource
    and neither a Pod, nor a Service, nor a Deployment is found under it,
    or when the target found carries a deletion timestamp, [Reconcile]
    is the reverse cleanup, whatever the target's annotations. *)
Theorem target_gone_or_going (req : ObjectKey) (err : error) (w w1 : W) :
  GetTTL r req w = (inl err, w1) ->
  IsNotFound err = true ->
  (forall (e1 e2 e3 : error) (w2 w3 w4 : W),
     GetObject r Pod req w1 = (inl e1, w2) -> IsNotFound e1 = true ->
     GetObject r Service req w2 = (inl e2, w3) -> IsNotFound e2 = true ->
     GetObject r Deployment req w3 = (inl e3, w4) -> IsNotFound e3 = true ->
     ResourceReconciler.Reconcile r req w = ResourceReconciler.cleanupTTLResource r req w4)
  /\ (forall (obj : ObjectMeta) (gvk apiVersion : string) (at_ : Time) (w2 : W),
        ResourceReconciler.probeTarget r req w1 = (inr (obj, gvk, apiVersion), w2) ->
        DeletionTimestamp obj = Some at_ ->
        ResourceReconciler.Reconcile r req w = ResourceReconciler.cleanupTTLResource r req w2).
Proof.
  intros Hget Hnf. split.
  - intros e1 e2 e3 w2 w3 w4 H1 N1 H2 N2 H3 N3.
    unfold ResourceReconciler.Reconcile, ResourceReconciler.probeTarget. unfold_act.
    rewrite Hget, Hnf. cbn. rewrite H1, N1. cbn. rewrite H2, N2. cbn. rewrite H3, N3. cbn.
    now destruct (ResourceReconciler.cleanupTTLResource r req w4).
  - intros obj gvk apiVersion at_ w2 Hprobe Hdel.
    unfold ResourceReconciler.Reconcile. unfold_act.
    rewrite Hget, Hnf. cbn. rewrite Hprobe, Hdel.
    now destruct (ResourceReconciler.cleanupTTLResource r req w2).
Qed.

(** X11. Read errors end [Reconcile]. An error other than not-found from
    the read of the TTLResource, of the Pod, of the Service or of the
    Deployment is returned as it is, and no further call is made: the
    kinds after the one that failed are not tried. *)
Theorem read_errors_end_reconcile (req : ObjectKey) (w : W) :
  (forall (err : error) (w1 : W),
     GetTTL r req w = (inl err, w1) -> IsNotFound err = false ->
     ResourceReconciler.Reconcile r req w = ((noRequeue, Some err), w1)
     /\ TTLResourceReconciler.Reconcile r req w = ((noRequeue, Some err), w1))
  /\ (forall (e0 : error) (w1 : W),
        GetTTL r req w = (inl e0, w1) -> IsNotFound e0 = true ->
        (forall (err : error) (w2 : W),
           GetObject r Pod req w1 = (inl err, w2) -> IsNotFound err = false ->
           ResourceReconciler.Reconcile r req w = ((noRequeue, Some err), w2))
        /\ (forall (e1 err : error) (w2 w3 : W),
              GetObject r Pod req w1 = (inl e1, w2) -> IsNotFound e1 = true ->
              GetObject r Service req w2 = (inl err, w3) -> IsNotFound err = false ->
              ResourceReconciler.Reconcile r req w = ((noRequeue, Some err), w3))
        /\ (forall (e1 e2 err : error) (w2 w3 w4 : W),
              GetObject r Pod req w1 = (inl e1, w2) -> IsNotFound e1 = true ->
              GetObject r Service req w2 = (inl e2, w3) -> IsNotFound e2 = true ->
              GetObject r Deployment req w3 = (inl err, w4) -> IsNotFound err = false ->
              ResourceReconciler.Reconcile r req w = ((noRequeue, Some err), w4))).
Proof.
  split.
  - intros err w1 Hget Hnf. split.
    + unfold ResourceReconciler.Reconcile. unfold_act. now rewrite Hget, Hnf.
    + unfold TTLResourceReconciler.Reconcile. unfold_act. now rewrite Hget, Hnf.
  - intros e0 w1 Hget Hnf. repeat split.
    + intros err w2 H1 N1.
      unfold ResourceReconciler.Reconcile, ResourceReconciler.probeTarget. unfold_act.
      rewrite Hget, Hnf. cbn. now rewrite H1, N1.
    + intros e1 err w2 w3 H1 N1 H2 N2.
      unfold ResourceReconciler.Reconcile, ResourceReconciler.probeTarget. unfold_act.
      rewrite Hget, Hnf. cbn. rewrite H1, N1. cbn. now rewrite H2, N2.
    + intros e1 e2 err w2 w3 w4 H1 N1 H2 N2 H3 N3.
      unfold ResourceReconciler.Reconcile, ResourceReconciler.probeTarget. unfold_act.
      rewrite Hget, Hnf. cbn. rewrite H1, N1. cbn. rewrite H2, N2. cbn. now rewrite H3, N3.
Qed.

(** ** [cleanupTTLResource] (lines 211-238) *)

(** X12. The reverse cleanup and the marker. [cleanupTTLResource] looks up
    the record named "ttl-" and the name of the key.  A record whose
    label "ttl.example.com/managed-by" is not "resource-controller" is
    left alone; one that carries the marker is deleted, and a not-found
    from this delete counts as success; a record that is not found is
    success with no further call; any other error is returned. *)
Theorem cleanup_respects_marker (key : ObjectKey) (w : W) :
  let lookup := GetTTL r {| key_Namespace := key_Namespace key;
                            key_Name := "ttl-" +:+ key_Name key |} w in
  (forall (err : error) (w1 : W),
     lookup = (inl err, w1) ->
     ResourceReconciler.cleanupTTLResource r key w
     = ((noRequeue, if IsNotFound err then None else Some err), w1))
  /\ (forall (t : TTLResource) (w1 : W),
        lookup = (inr t, w1) ->
        Labels (Meta t) !! TTLResourceLabelKey <> Some TTLResourceLabelValue ->
        ResourceReconciler.cleanupTTLResource r key w = ((noRequeue, None), w1))
  /\ (forall (t : TTLResource) (w1 : W),
        lookup = (inr t, w1) ->
        Labels (Meta t) !! TTLResourceLabelKey = Some TTLResourceLabelValue ->
        ResourceReconciler.cleanupTTLResource r key w
        = match Delete r t w1 with
          | (None, w2) => ((noRequeue, None), w2)
          | (Some e, w2) => ((noRequeue, if IsNotFound e then None else Some e), w2)
          end).
Proof.
  intros lookup. subst lookup. repeat split.
  - intros err w1 Hget. unfold ResourceReconciler.cleanupTTLResource. unfold_act.
    rewrite Hget. now destruct (IsNotFound err).
  - intros t w1 Hget Hlabel. rewrite (cleanupTTLResource_found r key t w w1 Hget).
    unfold mapIndex. destruct (Labels (Meta t) !! TTLResourceLabelKey) as [v |] eqn:Hv; cbn.
    + destruct (String.eqb_spec v TTLResourceLabelValue) as [-> | Hne]; [now destruct Hlabel |].
      reflexivity.
    + reflexivity.
  - intros t w1 Hget Hlabel. rewrite (cleanupTTLResource_found r key t w w1 Hget).
    unfold mapIndex. rewrite Hlabel. cbn.
    destruct (Delete r t w1) as [[e |] w2]; [now destruct (IsNotFound e) | reflexivity].
Qed.

(** ** TTLResourceReconciler (ttlresource_controller.go, lines 61-116) *)

(** X13. The second pass of TTLResourceReconciler. On a record that has
    CreatedAt but no ExpiredAt, it writes ExpiredAt, CreatedAt plus
    [time.Duration(ttlSeconds) * time.Second], before anything else: a
    failure of this write is returned; after the write, with the clock
    not past ExpiredAt, it returns the delay [expiredAt.Sub(now)] and
    makes no further call. *)
Theorem standalone_second_pass (req : ObjectKey) (t : TTLResource) (c now : Time)
    (w w1 w2 : W) :
  GetTTL r req w = (inr t, w1) ->
  Now r w1 = (now, w2) ->
  TTLSeconds (Spec t) <> 0 ->
  CreatedAt (Status t) = c ->
  c <> 0 ->
  ExpiredAt (Status t) = None ->
  let expireTime := Time_Add c (secondsDuration (TTLSeconds (Spec t))) in
  now <= expireTime ->
  TTLResourceReconciler.Reconcile r req w
  = match StatusUpdate r (withExpiredAt t expireTime) w2 with
    | (inl e, w3) => ((noRequeue, Some e), w3)
    | (inr _, w3) =>
        (({| Requeue := false; RequeueAfter := Time_Sub expireTime now |}, None), w3)
    end.
Proof.
  intros Hget Hnow Httl Hc Hc0 He expireTime Hle.
  unfold TTLResourceReconciler.Reconcile. unfold_act.
  rewrite Hget, Hnow. apply Z.eqb_neq in Httl. rewrite Httl.
  unfold Time_IsZero. rewrite Hc. apply Z.eqb_neq in Hc0. rewrite Hc0, He. cbn.
  fold expireTime.
  destruct (StatusUpdate r (withExpiredAt t expireTime) w2) as [[e | rv] w3]; [reflexivity |].
  cbn. unfold Time_After. apply Z.ltb_ge in Hle. rewrite Hle.
  now rewrite andb_false_r.
Qed.

(** X14. The expiry pass of TTLResourceReconciler. On a record with
    CreatedAt and ExpiredAt that is not marked expired, with the clock
    past ExpiredAt, it marks the record expired and then deletes the
    record, and nothing else: no target is read or deleted.  Every error
    of the two calls is returned, a not-found from the delete included. *)
Theorem standalone_expiry_pass (req : ObjectKey) (t : TTLResource) (ea now : Time)
    (w w1 w2 : W) :
  GetTTL r req w = (inr t, w1) ->
  Now r w1 = (now, w2) ->
  settled t ea ->
  Expired (Status t) = false ->
  ea < now ->
  TTLResourceReconciler.Reconcile r req w
  = match StatusUpdate r (withExpired t true) w2 with
    | (inl e, w3) => ((noRequeue, Some e), w3)
    | (inr rv, w3) =>
        match Delete r (withResourceVersion (withExpired t true) rv) w3 with
        | (Some e, w4) => ((noRequeue, Some e), w4)
        | (None, w4) => ((noRequeue, None), w4)
        end
    end.
Proof.
  intros Hget Hnow (Httl & Hc & He) Hx Hlt.
  unfold TTLResourceReconciler.Reconcile. unfold_act.
  rewrite Hget, Hnow. apply Z.eqb_neq in Httl, Hc.
  unfold Time_IsZero. rewrite Httl, Hc, He. cbn. rewrite Hx.
  unfold Time_After. apply Z.ltb_lt in Hlt. rewrite Hlt. cbn.
  destruct (StatusUpdate r (withExpired t true) w2) as [[e | rv] w3]; [reflexivity |].
  cbn. now destruct (Delete r _ w3) as [[e |] w4].
Qed.

(** X15. The two reconcilers before the deadline. On a record with
    CreatedAt and ExpiredAt that is not marked expired, while the clock
    is before ExpiredAt, TTLResourceReconciler and ResourceReconciler do
    the same: neither writes, and both return the delay
    [expiredAt.Sub(now)]. *)
Theorem reconcilers_agree_before_deadline (req : ObjectKey) (t : TTLResource)
    (ea now : Time) (w w1 w2 : W) :
  GetTTL r req w = (inr t, w1) ->
  Now r w1 = (now, w2) ->
  settled t ea ->
  Expired (Status t) = false ->
  now < ea ->
  TTLResourceReconciler.Reconcile r req w = ResourceReconciler.Reconcile r req w
  /\ ResourceReconciler.Reconcile r req w
     = (({| Requeue := false; RequeueAfter := Time_Sub ea now |}, None), w2).
Proof.
  intros Hget Hnow Hs Hx Hlt.
  assert (Hd : ResourceReconciler.Reconcile r req w
               = (({| Requeue := false; RequeueAfter := Time_Sub ea now |}, None), w2)).
  { rewrite (Reconcile_delegates req t w w1 Hget).
    now apply reconcileTTLResource_not_due. }
  split; [| exact Hd]. rewrite Hd.
  apply (standalone_idle r req t ea now w w1 w2); auto. right. lia.
Qed.

(** X16. Nothing under the key. When no TTLResource is found,
    TTLResourceReconciler returns success after its one read; when no
    Pod, Service or Deployment is found either and there is no record
    named after the key, ResourceReconciler returns success after its
    five reads.  Neither writes or deletes anything. *)
Theorem nothing_to_reconcile (req : ObjectKey) (e0 e1 e2 e3 e4 : error)
    (w w1 w2 w3 w4 w5 : W) :
  GetTTL r req w = (inl e0, w1) -> IsNotFound e0 = true ->
  GetObject r Pod req w1 = (inl e1, w2) -> IsNotFound e1 = true ->
  GetObject r Service req w2 = (inl e2, w3) -> IsNotFound e2 = true ->
  GetObject r Deployment req w3 = (inl e3, w4) -> IsNotFound e3 = true ->
  GetTTL r {| key_Namespace := key_Namespace req; key_Name := "ttl-" +:+ key_Name req |} w4
  = (inl e4, w5) ->
  IsNotFound e4 = true ->
  TTLResourceReconciler.Reconcile r req w = ((noRequeue, None), w1)
  /\ ResourceReconciler.Reconcile r req w = ((noRequeue, None), w5).
Proof.
  intros H0 N0 H1 N1 H2 N2 H3 N3 H4 N4. split.
  - unfold TTLResourceReconciler.Reconcile. unfold_act. now rewrite H0, N0.
  - unfold ResourceReconciler.Reconcile, ResourceReconciler.probeTarget,
      ResourceReconciler.cleanupTTLResource. unfold_act.
    rewrite H0, N0. cbn. rewrite H1, N1. cbn. rewrite H2, N2. cbn. rewrite H3, N3. cbn.
    now rewrite H4, N4.
Qed.

End Coverage.

(** * Further runs on the in-memory server *)

Import Scenes.

(** A call that answers [a] leaves the world it leaves. *)
Lemma answer_and_world {A B : Type} (x : A * B) (a : A) :
  fst x = a -> x = (a, snd x).
Proof. destruct x as [a' b]. cbn. now intros ->. Qed.

(** Reading the clock of the in-memory server. *)
Lemma clock_read (w : World) (t : Time) :
  clock (store w) = t -> Now client w = (t, w).
Proof. now intros <-. Qed.

(** Settles a side condition on a closed world: the answer of a call by
    evaluation, the world after it by its name. *)
Ltac by_run :=
  first [ apply answer_and_world; by_evaluation
        | apply clock_read; by_evaluation
        | by_evaluation ].

(** X2: the record with a TTL of 5 seconds, seen for the first time. *)
Lemma initStatus_first_witness :
  ResourceReconciler.initStatus (record 5 uninitialized)
  = (withStatus (record 5 uninitialized)
       {| Expired := Expired (Status (record 5 uninitialized));
          CreatedAt := CreationTimestamp (Meta (record 5 uninitialized));
          ExpiredAt := Some (CreationTimestamp (Meta (record 5 uninitialized))
                             + TTLSeconds (Spec (record 5 uninitialized)) * 1000000000) |},
     true).
Proof.
  exact (proj1 (initStatus_first (record 5 uninitialized)
                  ltac:(by_evaluation) ltac:(by_evaluation) ltac:(by_evaluation)
                  ltac:(by_evaluation))).
Defined.

(** X3: the scheduled record three seconds after [T0], and seven. *)
Lemma delegated_timer_witness :
  let early := scene 5 (scheduled 5) 3 [] in
  let late := scene 5 (scheduled 5) 7 [] in
  let l2 := snd (GetTTL client recordKey late) in
  let l3 := snd (GetTTL client (keyOf (record 5 (scheduled 5))) l2) in
  let l4 := snd (StatusUpdate client (withExpired (record 5 (scheduled 5)) true) l3) in
  (ResourceReconciler.Reconcile client recordKey early
   = (({| Requeue := false; RequeueAfter := Time_Sub (after 5) (after 3) |}, None),
      snd (GetTTL client recordKey early))
   /\ 0 < Time_Sub (after 5) (after 3))
  /\ ResourceReconciler.Reconcile client recordKey late
     = ResourceReconciler.deleteExpiredResources client
         (withResourceVersion (withExpired (record 5 (scheduled 5)) true) 2) l4.
Proof.
  intros early late l2 l3 l4. split.
  - refine (proj1 (delegated_timer client recordKey (record 5 (scheduled 5)) (after 5)
                     (after 3) early (snd (GetTTL client recordKey early))
                     (snd (GetTTL client recordKey early)) _ _ _ _) _); by_run.
  - refine (proj2 (delegated_timer client recordKey (record 5 (scheduled 5)) (after 5)
                     (after 7) late l2 l2 _ _ _ _)
              (record 5 (scheduled 5)) 2 l3 l4 _ _ _ _ _); by_run.
Defined.

(** X4: somebody writes the record just before it is marked expired. *)
Lemma delegated_status_write_failure_witness :
  let w := scene 5 (scheduled 5) 6 [Proceed; Proceed; Interfere touch] in
  let w2 := snd (GetTTL client recordKey w) in
  let w3 := snd (GetTTL client (keyOf (record 5 (scheduled 5))) w2) in
  let w4 := snd (StatusUpdate client (withExpired (record 5 (scheduled 5)) true) w3) in
  ResourceReconciler.Reconcile client recordKey w = (statusWriteFailure conflict, w4).
Proof.
  intros w w2 w3 w4.
  refine (proj2 (delegated_status_write_failure client recordKey (record 5 (scheduled 5))
                   (record 5 (scheduled 5)) (after 6) conflict w w2 w2 w3 w4 _ _ _ _)
            (after 5) _ _ _ _ _); by_run.
Defined.

(** X5: the record is made anew just before the second read. *)
Lemma delegated_second_read_witness :
  let w := scene 5 (scheduled 5) 6 [Proceed; Interfere recreate] in
  let w2 := snd (GetTTL client recordKey w) in
  let w3 := snd (GetTTL client (keyOf (record 5 (scheduled 5))) w2) in
  ResourceReconciler.Reconcile client recordKey w = ((noRequeue, None), w3).
Proof.
  intros w w2 w3.
  refine (proj2 (delegated_second_read client recordKey (record 5 (scheduled 5)) (after 5)
                   (after 6) w w2 w2 w3 _ _ _ _)
            (withResourceVersion
               {| Meta := recordMeta "uid-2" managedLabels;
                  Spec := {| TTLSeconds := 5 |}; Status := zeroStatus |} 3) _ _);
    [by_run | by_run | by_run | right; by_run | by_run | by_run].
Defined.

(** X15: the scheduled record three seconds after [T0]. *)
Lemma reconcilers_agree_before_deadline_witness :
  let w := scene 5 (scheduled 5) 3 [] in
  TTLResourceReconciler.Reconcile client recordKey w
  = ResourceReconciler.Reconcile client recordKey w
  /\ ResourceReconciler.Reconcile client recordKey w
     = (({| Requeue := false; RequeueAfter := Time_Sub (after 5) (after 3) |}, None),
        snd (GetTTL client recordKey w)).
Proof.
  intros w.
  refine (reconcilers_agree_before_deadline client recordKey (record 5 (scheduled 5))
            (after 5) (after 3) w (snd (GetTTL client recordKey w))
            (snd (GetTTL client recordKey w)) _ _ _ _ _); by_run.
Defined.

(** X13: the record that has CreatedAt, one second after [T0]. *)
Lemma standalone_second_pass_witness :
  let w := scene 5 created 1 [] in
  let t := record 5 created in
  let w2 := snd (GetTTL client recordKey w) in
  let expireTime := Time_Add T0 (secondsDuration (TTLSeconds (Spec t))) in
  TTLResourceReconciler.Reconcile client recordKey w
  = match StatusUpdate client (withExpiredAt t expireTime) w2 with
    | (inl e, w3) => ((noRequeue, Some e), w3)
    | (inr _, w3) =>
        (({| Requeue := false; RequeueAfter := Time_Sub expireTime (after 1) |}, None), w3)
    end.
Proof.
  intros w t w2 expireTime.
  refine (standalone_second_pass client recordKey t T0 (after 1) w w2 w2 _ _ _ _ _ _ _);
    by_run.
Defined.

(** X14: the scheduled record six seconds after [T0]. *)
Lemma standalone_expiry_pass_witness :
  let w := scene 5 (scheduled 5) 6 [] in
  let t := record 5 (scheduled 5) in
  let w2 := snd (GetTTL client recordKey w) in
  TTLResourceReconciler.Reconcile client recordKey w
  = match StatusUpdate client (withExpired t true) w2 with
    | (inl e, w3) => ((noRequeue, Some e), w3)
    | (inr rv, w3) =>
        match Delete client (withResourceVersion (withExpired t true) rv) w3 with
        | (Some e, w4) => ((noRequeue, Some e), w4)
        | (None, w4) => ((noRequeue, None), w4)
        end
    end.
Proof.
  intros w t w2.
  refine (standalone_expiry_pass client recordKey t (after 5) (after 6) w w2 w2 _ _ _ _ _);
    by_run.
Defined.

(** X16: a key under which nothing is stored. *)
Lemma nothing_to_reconcile_witness :
  let w1 := snd (GetTTL client webKey nothing) in
  let w2 := snd (GetObject client Pod webKey w1) in
  let w3 := snd (GetObject client Service webKey w2) in
  let w4 := snd (GetObject client Deployment webKey w3) in
  let w5 := snd (GetTTL client {| key_Namespace := key_Namespace webKey;
                                  key_Name := "ttl-" +:+ key_Name webKey |} w4) in
  TTLResourceReconciler.Reconcile client webKey nothing = ((noRequeue, None), w1)
  /\ ResourceReconciler.Reconcile client webKey nothing = ((noRequeue, None), w5).
Proof.
  intros w1 w2 w3 w4 w5.
  refine (nothing_to_reconcile client webKey notFound notFound notFound notFound notFound
            nothing w1 w2 w3 w4 w5 _ _ _ _ _ _ _ _ _ _); by_run.
Defined.

(** X11: the first read times out. *)
Lemma read_errors_end_reconcile_witness :
  let w := scene 5 (scheduled 5) 1 [Fail timeout] in
  ResourceReconciler.Reconcile client recordKey w
  = ((noRequeue, Some timeout), snd (GetTTL client recordKey w))
  /\ TTLResourceReconciler.Reconcile client recordKey w
     = ((noRequeue, Some timeout), snd (GetTTL client recordKey w)).
Proof.
  intros w.
  refine (proj1 (read_errors_end_reconcile client recordKey w) timeout
            (snd (GetTTL client recordKey w)) _ _); by_run.
Defined.

(** X10: the record of a Pod that is gone, and the Pod being deleted. *)
Lemma target_gone_or_going_witness :
  let w1 := snd (GetTTL client webKey orphaned) in
  let w2 := snd (GetObject client Pod webKey w1) in
  let w3 := snd (GetObject client Service webKey w2) in
  let w4 := snd (GetObject client Deployment webKey w3) in
  let g2 := snd (ResourceReconciler.probeTarget client webKey
                   (snd (GetTTL client webKey going))) in
  ResourceReconciler.Reconcile client webKey orphaned
  = ResourceReconciler.cleanupTTLResource client webKey w4
  /\ ResourceReconciler.Reconcile client webKey going
     = ResourceReconciler.cleanupTTLResource client webKey g2.
Proof.
  intros w1 w2 w3 w4 g2. split.
  - refine (proj1 (target_gone_or_going client webKey notFound orphaned w1 _ _)
              notFound notFound notFound w2 w3 w4 _ _ _ _ _ _); by_run.
  - refine (proj2 (target_gone_or_going client webKey notFound going
                     (snd (GetTTL client webKey going)) _ _)
              {| Name := "web"; Namespace := "default"; UID := "uid-web";
                 ResourceVersion := 1; CreationTimestamp := T0;
                 DeletionTimestamp := Some (after 1); Labels := ∅;
                 Annotations := ttlAnnotation "5"; OwnerReferences := [] |}
              "Pod" "v1" (after 1) g2 _ _); by_run.
Defined.

(** X12: the record made by hand is left alone, the managed one deleted. *)
Lemma cleanup_respects_marker_witness :
  let key := {| key_Namespace := key_Namespace webKey;
                key_Name := "ttl-" +:+ key_Name webKey |} in
  ResourceReconciler.cleanupTTLResource client webKey handmade
  = ((noRequeue, None), snd (GetTTL client key handmade))
  /\ ResourceReconciler.cleanupTTLResource client webKey orphaned
     = match Delete client (record 5 (expired 5)) (snd (GetTTL client key orphaned)) with
       | (None, w2) => ((noRequeue, None), w2)
       | (Some e, w2) => ((noRequeue, if IsNotFound e then None else Some e), w2)
       end.
Proof.
  intros key. split.
  - refine (proj1 (proj2 (cleanup_respects_marker client webKey handmade))
              handmadeRecord (snd (GetTTL client key handmade)) _ _); by_run.
  - refine (proj2 (proj2 (cleanup_respects_marker client webKey orphaned))
              (record 5 (expired 5)) (snd (GetTTL client key orphaned)) _ _); by_run.
Defined.

(** X9: the owner reference to a Job, and the one with two slashes. *)
Lemma supported_kinds_witness :
  ResourceReconciler.deleteOwnerResource client jobOwner "default" nothing
  = (Some (ErrorString
             ("unsupported resource type: "
              +:+ GroupVersionKind_String
                    {| Group := "batch"; Version := "v1"; Kind := or_Kind jobOwner |})),
     nothing)
  /\ ResourceReconciler.deleteOwnerResource client oddOwner "default" nothing
     = (Some (WrapError "invalid apiVersion: "
                (ErrorString ("unexpected GroupVersion string: "
                              +:+ or_APIVersion oddOwner))), nothing).
Proof.
  split.
  - refine (proj1 (proj2 (supported_kinds client jobOwner "default" nothing))
              "batch" "v1" _ _); [by_run | intros [| |]; by_evaluation].
  - refine (proj2 (proj2 (supported_kinds client oddOwner "default" nothing)) _).
    vm_compute. lia.
Defined.


(** X6: the annotation and the record agree on 5 seconds; then the
    annotation says 120 and the record 60. *)
Lemma target_with_record_witness :
  let key := {| key_Namespace := key_Namespace webKey; key_Name := "ttl-" +:+ Name pod5 |} in
  let same := annotated (ttlAnnotation "5") in
  let same2 := snd (ResourceReconciler.probeTarget client webKey
                      (snd (GetTTL client webKey same))) in
  let retuned2 := snd (ResourceReconciler.probeTarget client webKey
                         (snd (GetTTL client webKey retuned))) in
  ResourceReconciler.Reconcile client webKey same
  = ((noRequeue, None), snd (GetTTL client key same2))
  /\ ResourceReconciler.Reconcile client webKey retuned
     = match Update client
               (withStatus (withSpec (record 60 (scheduled 60)) {| TTLSeconds := 120 |})
                           zeroStatus)
               (snd (GetTTL client key retuned2)) with
       | (None, w4) => ((noRequeue, None), w4)
       | (Some e, w4) => ((noRequeue, if IsConflict e then None else Some e), w4)
       end.
Proof.
  intros key same same2 retuned2. split.
  - refine (proj1 (target_with_record client webKey pod5 "Pod" "v1" 5
                     (record 5 (scheduled 5)) same same2 (snd (GetTTL client key same2))
                     _ _) _);
      [ exists notFound, (snd (GetTTL client webKey same)), "5"; repeat apply conj; by_run
      | by_run | by_run ].
  - refine (proj2 (target_with_record client webKey (web (ttlAnnotation "120")) "Pod" "v1" 120
                     (record 60 (scheduled 60)) retuned retuned2
                     (snd (GetTTL client key retuned2)) _ _) _);
      [ exists notFound, (snd (GetTTL client webKey retuned)), "120"; repeat apply conj; by_run
      | by_run | by_run ].
Defined.

(** X7: the annotated Pod without a record. *)
Lemma target_without_record_witness :
  let key := {| key_Namespace := key_Namespace webKey; key_Name := "ttl-" +:+ Name pod5 |} in
  let w2 := snd (ResourceReconciler.probeTarget client webKey
                   (snd (GetTTL client webKey unrecorded))) in
  let w3 := snd (GetTTL client key w2) in
  let made := ResourceReconciler.newTTLResource webKey pod5 "Pod" "v1" 5 in
  ResourceReconciler.Reconcile client webKey unrecorded
  = (if IsNotFound notFound then
       match Create client made w3 with
       | (None, w4) => ((noRequeue, None), w4)
       | (Some e, w4) => ((noRequeue, if IsAlreadyExists e then None else Some e), w4)
       end
     else ((noRequeue, Some notFound), w3)).
Proof.
  intros key w2 w3 made.
  refine (proj1 (target_without_record client webKey pod5 "Pod" "v1" 5 notFound
                   unrecorded w2 w3 _ _));
    [ exists notFound, (snd (GetTTL client webKey unrecorded)), "5"; repeat apply conj; by_run
    | by_run ].
Defined.
